(** * RetailerBuyingPage: the retailer's "Buy from Wholesaler" page

    A shallow embedding of [frontend/src/pages/RetailerbuyingPage.js].

    The React component is modelled as a transition system: the values kept
    by [useState] form the component state, every handler of the source is a
    function on the page state, and what the handlers do to the outside
    (toasts, network requests, timers, [window.location]) is recorded next
    to it.  JavaScript numbers are IEEE binary64 values, so they are
    primitive floats here.  An [async] function is cut at its [await]: the
    part before it runs on the click, the part after it when the request
    settles.  What the page writes to the console is left out. *)

From Stdlib Require Import ZArith NArith QArith Qabs Qround Lqa.
From Stdlib Require Import String Ascii List Bool Lia.
From Stdlib Require Import Decimal DecimalString DecimalPos.
From Stdlib Require Import PrimFloat FloatOps SpecFloat.
Import ListNotations.

Set Warnings "-register-all".
Local Open Scope string_scope.

(** ** The JavaScript built-ins the page relies on *)

Module Js.

(** [hay.includes(needle)].  Strings are sequences of bytes (UTF-8); every
    needle of the page is ASCII, for which matching bytes and matching
    UTF-16 code units agree. *)
Fixpoint includes (needle hay : string) : bool :=
  if String.prefix needle hay then true
  else match hay with
       | EmptyString => false
       | String _ rest => includes needle rest
       end.

(** [String(n)] for an integer-valued number below 10^21. *)
Definition string_of_Z (n : Z) : string :=
  NilZero.string_of_int (Z.to_int n).

(** The decimal digit [r] put in front of the digits [x], lowest digit
    first. *)
Definition cons_digit (r : N) (x : uint) : uint :=
  match r with
  | 0 => D0 x | 1 => D1 x | 2 => D2 x | 3 => D3 x | 4 => D4 x
  | 5 => D5 x | 6 => D6 x | 7 => D7 x | 8 => D8 x | _ => D9 x
  end%N.

(** [xs.join(sep)] on strings. *)
Fixpoint join (sep : string) (xs : list string) : string :=
  match xs with
  | [] => ""
  | [x] => x
  | x :: rest => x ++ sep ++ join sep rest
  end.

(** *** Numbers

    A number is a binary64 float.  [Prim2SF] exposes its sign, mantissa
    and exponent, from which its exact value is read as a rational. *)

(** [m * 2^e], exactly. *)
Definition magnitude (m : positive) (e : Z) : Q :=
  if (0 <=? e)%Z then inject_Z (Zpos m * 2 ^ e)
  else Zpos m # Z.to_pos (2 ^ (- e)).

(** The real number a float stands for; [None] for NaN and the
    infinities. *)
Definition value (x : float) : option Q :=
  match Prim2SF x with
  | S754_zero _ => Some 0%Q
  | S754_finite s m e =>
      Some (if s then (- magnitude m e)%Q else magnitude m e)
  | S754_infinity _ | S754_nan => None
  end.

(** What [toFixed] prints: digits worked out here, or, from 10^21 on, what
    [Number::toString] makes of the number ([number_to_string] below). *)
Inductive number_text : Type :=
| Text (s : string)
| ViaToString (x : float).

(** [k] zeros. *)
Fixpoint zeros (k : nat) : string :=
  match k with
  | O => ""
  | S k' => String "0" (zeros k')
  end.

(** Step 11 of [Number.prototype.toFixed]: the decimal digits of [n],
    padded to at least [f + 1] of them, with the point before the last
    [f]. *)
Definition fixed_point (f : nat) (n : Z) : string :=
  let m := string_of_Z n in
  if (f =? 0)%nat then m
  else
    let k := String.length m in
    let m' := if (k <=? f)%nat then zeros (f + 1 - k) ++ m else m in
    let k' := if (k <=? f)%nat then (f + 1)%nat else k in
    substring 0 (k' - f) m' ++ "." ++ substring (k' - f) f m'.

(** The integer [n] of step 11 for a non-negative [x]: the one for which
    [n / 10^f - x] is closest to zero, the larger when there are two. *)
Definition nearest_scaled (f : nat) (x : Q) : Z :=
  Qfloor (x * inject_Z (10 ^ Z.of_nat f) + (1 # 2)).

(** The wording of step 11 itself: [n / 10^f - x] is as close to zero as
    possible, and [n] is the larger of the two integers when there are
    two. *)
Definition rounds_to (f : nat) (x : Q) (n : Z) : Prop :=
  let scale := inject_Z (10 ^ Z.of_nat f) in
  forall k : Z,
    (Qabs (inject_Z n / scale - x) <= Qabs (inject_Z k / scale - x))%Q
    /\ (Qabs (inject_Z n / scale - x) == Qabs (inject_Z k / scale - x)
        -> (k <= n)%Z)%Q.

(** ["-"] in front of a negative number. *)
Definition sign_text (x : Q) : string :=
  if Qlt_le_dec x 0 then "-" else "".

(** [x.toFixed(f)] for [0 <= f <= 100] (outside, JavaScript raises a
    [RangeError]; the page calls it with 2). *)
Definition toFixed (f : nat) (x : float) : number_text :=
  match Prim2SF x with
  | S754_nan => Text "NaN"
  | S754_infinity s => Text (if s then "-Infinity" else "Infinity")
  | S754_zero _ => Text (fixed_point f 0)
  | S754_finite s m e =>
      let ax := magnitude m e in
      if Qle_bool (inject_Z (10 ^ 21)) ax then ViaToString x
      else Text ((if s then "-" else "")
                 ++ fixed_point f (nearest_scaled f ax))
  end.

(** *** Number::toString

    The shortest digits that read back as the same float, the closest to
    it when several do, laid out as ECMAScript prescribes. *)

(** [b^t] for any integer [t]. *)
Definition power (b : Z) (t : Z) : Q :=
  if (0 <=? t)%Z then inject_Z (b ^ t) else 1 # Z.to_pos (b ^ (- t)).

Definition Qltb (a b : Q) : bool := negb (Qle_bool b a).

(** The reals that round to the float [m * 2^e] ([m] of 53 bits, or of
    fewer at the exponent -1074): those between the midpoints with its
    two neighbours, the midpoints themselves when [m] is even. *)
Definition rounds_here (m : positive) (e : Z) (c : Q) : bool :=
  let x := magnitude m e in
  let below := if ((Zpos m =? 2 ^ 52) && (-1074 <? e))%Z
               then power 2 (e - 2) else power 2 (e - 1) in
  let lo := (x - below)%Q in
  let hi := (x + power 2 (e - 1))%Q in
  if Z.even (Zpos m) then Qle_bool lo c && Qle_bool c hi
  else Qltb lo c && Qltb c hi.

(** The [n] with [10^(n-1) <= m * 2^e < 10^n], looked for from an
    estimate by the binary logarithm. *)
Definition decimal_exponent (m : positive) (e : Z) : Z :=
  let x := magnitude m e in
  let n0 := ((Z.log2 (Zpos m) + e) * 30103 / 100000 - 1)%Z in
  match find (fun n => Qltb x (power 10 n))
             (map (fun i => n0 + Z.of_nat i)%Z (seq 0 8)) with
  | Some n => n
  | None => n0
  end.

(** With [k] digits: the multiple [s * 10^(n-k)] closest to the float
    among those that round to it (the even [s] of two as close), if there
    is one. *)
Definition digits_of_length (m : positive) (e : Z) (n k : Z)
  : option (Z * Z) :=
  let x := magnitude m e in
  let t := (n - k)%Z in
  let q := (x * power 10 (- t))%Q in
  let down := Qfloor q in
  let up := (down + 1)%Z in
  let fits s := rounds_here m e (inject_Z s * power 10 t) in
  let away s := Qabs (inject_Z s - q) in
  match fits down, fits up with
  | true, true =>
      if Qltb (away down) (away up) then Some (down, t)
      else if Qltb (away up) (away down) then Some (up, t)
      else Some (if Z.even down then down else up, t)
  | true, false => Some (down, t)
  | false, true => Some (up, t)
  | false, false => None
  end.

(** The fewest digits that do, from [k] on (seventeen always do). *)
Fixpoint shortest (m : positive) (e : Z) (n k : Z) (fuel : nat) : Z * Z :=
  match fuel with
  | O => (Zpos m, e)
  | S fuel' =>
      match digits_of_length m e n k with
      | Some found => found
      | None => shortest m e n (k + 1) fuel'
      end
  end.

(** [s * 10^t] written with an [s] that is no multiple of 10. *)
Fixpoint strip (s t : Z) (fuel : nat) : Z * Z :=
  match fuel with
  | O => (s, t)
  | S fuel' =>
      if (s mod 10 =? 0)%Z then strip (s / 10) (t + 1) fuel' else (s, t)
  end.

Definition exponent_text (n : Z) : string :=
  (if (0 <=? n - 1)%Z then "e+" else "e-") ++ string_of_Z (Z.abs (n - 1)).

(** The layout of the digits of a number between [10^(n-1)] and
    [10^n]. *)
Definition layout (digits : string) (n : Z) : string :=
  let k := Z.of_nat (String.length digits) in
  if ((k <=? n) && (n <=? 21))%Z then digits ++ zeros (Z.to_nat (n - k))
  else if ((0 <? n) && (n <=? 21))%Z then
    substring 0 (Z.to_nat n) digits ++ "."
    ++ substring (Z.to_nat n) (Z.to_nat (k - n)) digits
  else if ((-6 <? n) && (n <=? 0))%Z then
    "0." ++ zeros (Z.to_nat (- n)) ++ digits
  else if (k =? 1)%Z then digits ++ exponent_text n
  else substring 0 1 digits ++ "."
       ++ substring 1 (Z.to_nat (k - 1)) digits ++ exponent_text n.

(** [String(x)] for a number [x]. *)
Definition number_to_string (x : float) : string :=
  match Prim2SF x with
  | S754_nan => "NaN"
  | S754_zero _ => "0"
  | S754_infinity s => if s then "-Infinity" else "Infinity"
  | S754_finite sign m e =>
      let n := decimal_exponent m e in
      let '(s, t) := shortest m e n 1 17 in
      let '(s', t') := strip s t 400 in
      let digits := string_of_Z s' in
      (if sign then "-" else "")
      ++ layout digits (t' + Z.of_nat (String.length digits))
  end.

(** *** JSON values *)

(** The values [JSON.parse] produces; the fields of an object are kept in
    the order of the text. *)
Inductive json : Type :=
| JNull
| JBool (b : bool)
| JNum (x : float)
| JStr (s : string)
| JArr (items : list json)
| JObj (fields : list (string * json)).

(** Outcome of [JSON.parse(text)]: a value, or a [SyntaxError] carrying the
    engine's message. *)
Inductive parse_result : Type :=
| ParseOk (v : json)
| ParseThrows (message : string).

(** ToBoolean, as used by [||]. *)
Definition truthy (v : json) : bool :=
  match v with
  | JNull => false
  | JBool b => b
  | JNum x => negb ((x =? 0)%float || is_nan x)
  | JStr s => negb (s =? "")
  | JArr _ | JObj _ => true
  end.

(** What reading a property yields. *)
Inductive read : Type :=
| Value (v : json)
| Undefined
| ReadThrows.

(** The last binding of [key] among [fields] (a repeated key keeps its last
    value in [JSON.parse]). *)
Fixpoint last_binding (key : string) (fields : list (string * json))
  : option json :=
  match fields with
  | [] => None
  | (k, v) :: rest =>
      match last_binding key rest with
      | Some later => Some later
      | None => if k =? key then Some v else None
      end
  end.

(** [v.key] for a key that no built-in prototype defines ([detail] and
    [message] are the two the page reads): a [TypeError] on [null],
    [undefined] on the other primitives and on arrays. *)
Definition get (key : string) (v : json) : read :=
  match v with
  | JNull => ReadThrows
  | JObj fields =>
      match last_binding key fields with
      | Some x => Value x
      | None => Undefined
      end
  | _ => Undefined
  end.

(** All the strings, unless one is missing. *)
Fixpoint all_printed (xs : list (option string)) : option (list string) :=
  match xs with
  | [] => Some []
  | Some x :: rest =>
      match all_printed rest with
      | Some printed => Some (x :: printed)
      | None => None
      end
  | None :: _ => None
  end.

(** ToString, as used by [+=] on a string; [None] when it throws a
    [TypeError].  An object prints through [Object.prototype.toString]
    unless a key of its own named [toString] hides that method: the value
    under such a key is no function and the conversion throws.  An array
    prints through [join], where a [null] element is the empty string. *)
Fixpoint to_string (v : json) : option string :=
  match v with
  | JNull => Some "null"
  | JBool true => Some "true"
  | JBool false => Some "false"
  | JNum x => Some (number_to_string x)
  | JStr s => Some s
  | JArr items =>
      match all_printed (map (fun x => match x with
                                       | JNull => Some ""
                                       | _ => to_string x
                                       end) items) with
      | Some printed => Some (join "," printed)
      | None => None
      end
  | JObj fields =>
      match last_binding "toString" fields with
      | Some _ => None
      | None => Some "[object Object]"
      end
  end.

(** The object [v] has the key [key], and [x] is the value it is given
    last. *)
Definition binds (key : string) (x v : json) : Prop :=
  exists before after : list (string * json),
    v = JObj (before ++ (key, x) :: after)
    /\ forall later : json, ~ In (key, later) after.

(** [v] is not [null] and has no key [key] of its own. *)
Definition lacks (key : string) (v : json) : Prop :=
  match v with
  | JNull => False
  | JObj fields => forall x : json, ~ In (key, x) fields
  | _ => True
  end.

(** [s] between double quotes, to write JSON text. *)
Definition quoted (s : string) : string :=
  String (ascii_of_nat 34) (s ++ String (ascii_of_nat 34) EmptyString).

(** V8's wording of the [TypeError] raised by [null.message]. *)
Definition null_read_message (key : string) : string :=
  "Cannot read properties of null (reading '" ++ key ++ "')".

End Js.

(** ** The data the page handles *)

(** A catalogue entry, as the products service returns it. *)
Module Product.

Record t : Type := make {
  id : string;
  seller_id : string;
  name : string;
  description : string;
  price : float;
  stock : float;
  image_url : option string
}.

End Product.

(** The session user supplied by [useAuth()]. *)
Module User.

Record t : Type := make {
  id : string;
  role : string
}.

End User.

(** ** The page *)

Module Page.

(** The body of the POST to [/api/purchase/from-wholesaler]. *)
Record Payload : Type := {
  wholesaler_id : string;
  product_id : string;
  retailer_id : string;
  quantity : float;
  markup_percent : float
}.

(** The requests the page issues. *)
Inductive Request : Type :=
| GetAllProducts (available_only : bool)
| PostPurchase (body : Payload)
| GetPurchaseTest.

(** Calls to [sonner]'s [toast]. *)
Inductive Toast : Type :=
| ToastError (message : string)
| ToastSuccess (content : Js.json)
| ToastInfo (message : string).

(** A pending [setTimeout] whose callback assigns [window.location.href]. *)
Record Timer : Type := {
  delay : nat;
  target : string
}.

(** What [productsAPI.getAll] resolves to, as far as [res.data ?? res]
    tells: [res.data] is an array, [res] itself is one and has no [data],
    or neither (then [all.filter] is not a function). *)
Inductive ApiResult : Type :=
| ResData (data : list Product.t)
| ResArray (res : list Product.t)
| ResOther.

(** How the products request settles. *)
Inductive LoadOutcome : Type :=
| LoadRejects
| LoadResolves (res : ApiResult).

(** The response of [fetch]: [resp.status], the text [resp.text()]
    resolves to, and what [JSON.parse] makes of that text. *)
Record Response : Type := {
  status : Z;
  text : string;
  parsed : Js.parse_result
}.

(** [resp.ok]: the status is in the range 200-299. *)
Definition ok (resp : Response) : bool :=
  ((200 <=? status resp) && (status resp <=? 299))%Z.

(** How the purchase request settles: [fetch] (or [resp.text()]) rejects
    with an error carrying [message], or a response arrives. *)
Inductive FetchOutcome : Type :=
| FetchRejects (message : string)
| FetchResolves (resp : Response).

(** The five [useState] cells. *)
Record Hooks : Type := {
  whProducts : list Product.t;
  loading : bool;
  selected : option Product.t;
  qty : float;
  markup : float
}.

(** The component together with what it has done to its surroundings:
    the toasts shown and the requests sent, in order; how many requests of
    each kind are in flight; the timers not yet fired; the last value
    assigned to [window.location.href], if any. *)
Record State : Type := {
  hooks : Hooks;
  toasts : list Toast;
  requests : list Request;
  pendingLoads : nat;
  pendingPurchases : nat;
  pendingTests : nat;
  timers : list Timer;
  href : option string
}.

Definition with_hooks (h : Hooks) (w : State) : State :=
  {| hooks := h; toasts := toasts w; requests := requests w;
     pendingLoads := pendingLoads w; pendingPurchases := pendingPurchases w;
     pendingTests := pendingTests w; timers := timers w; href := href w |}.

Definition setWhProducts (v : list Product.t) (w : State) : State :=
  with_hooks {| whProducts := v; loading := loading (hooks w);
                selected := selected (hooks w); qty := qty (hooks w);
                markup := markup (hooks w) |} w.

Definition setLoading (v : bool) (w : State) : State :=
  with_hooks {| whProducts := whProducts (hooks w); loading := v;
                selected := selected (hooks w); qty := qty (hooks w);
                markup := markup (hooks w) |} w.

Definition setSelected (v : option Product.t) (w : State) : State :=
  with_hooks {| whProducts := whProducts (hooks w);
                loading := loading (hooks w); selected := v;
                qty := qty (hooks w); markup := markup (hooks w) |} w.

Definition setQty (v : float) (w : State) : State :=
  with_hooks {| whProducts := whProducts (hooks w);
                loading := loading (hooks w);
                selected := selected (hooks w); qty := v;
                markup := markup (hooks w) |} w.

Definition setMarkup (v : float) (w : State) : State :=
  with_hooks {| whProducts := whProducts (hooks w);
                loading := loading (hooks w);
                selected := selected (hooks w); qty := qty (hooks w);
                markup := v |} w.

Definition toast (t : Toast) (w : State) : State :=
  {| hooks := hooks w; toasts := toasts w ++ [t]; requests := requests w;
     pendingLoads := pendingLoads w; pendingPurchases := pendingPurchases w;
     pendingTests := pendingTests w; timers := timers w; href := href w |}.

(** The three endpoints, to count the requests in flight. *)
Inductive Endpoint : Type := Products | Purchase | PurchaseTest.

Definition endpoint_of (r : Request) : Endpoint :=
  match r with
  | GetAllProducts _ => Products
  | PostPurchase _ => Purchase
  | GetPurchaseTest => PurchaseTest
  end.

Definition in_flight (k : Endpoint) (w : State) : nat :=
  match k with
  | Products => pendingLoads w
  | Purchase => pendingPurchases w
  | PurchaseTest => pendingTests w
  end.

Definition with_in_flight (k : Endpoint) (n : nat) (w : State) : State :=
  {| hooks := hooks w; toasts := toasts w; requests := requests w;
     pendingLoads := match k with Products => n | _ => pendingLoads w end;
     pendingPurchases :=
       match k with Purchase => n | _ => pendingPurchases w end;
     pendingTests :=
       match k with PurchaseTest => n | _ => pendingTests w end;
     timers := timers w; href := href w |}.

(** A request leaves: it is logged and is in flight from now on. *)
Definition send (r : Request) (w : State) : State :=
  with_in_flight (endpoint_of r) (S (in_flight (endpoint_of r) w))
    {| hooks := hooks w; toasts := toasts w; requests := requests w ++ [r];
       pendingLoads := pendingLoads w;
       pendingPurchases := pendingPurchases w;
       pendingTests := pendingTests w;
       timers := timers w; href := href w |}.

(** A request to [k] has settled and is no longer in flight. *)
Definition settled (k : Endpoint) (w : State) : State :=
  with_in_flight k (pred (in_flight k w)) w.

Definition setTimeout (t : Timer) (w : State) : State :=
  {| hooks := hooks w; toasts := toasts w; requests := requests w;
     pendingLoads := pendingLoads w; pendingPurchases := pendingPurchases w;
     pendingTests := pendingTests w; timers := timers w ++ [t];
     href := href w |}.

(** The callback of [t] runs, [rest] being the timers still pending:
    [window.location.href = target].  The browser then leaves the page;
    the model lets events go on, so that what holds of all its states
    holds of those the page goes through. *)
Definition fire (t : Timer) (rest : list Timer) (w : State) : State :=
  {| hooks := hooks w; toasts := toasts w; requests := requests w;
     pendingLoads := pendingLoads w; pendingPurchases := pendingPurchases w;
     pendingTests := pendingTests w; timers := rest;
     href := Some (target t) |}.

(** The first render: the initial values given to [useState], nothing done
    yet. *)
Definition initial : State :=
  {| hooks := {| whProducts := []; loading := true; selected := None;
                 qty := 1%float; markup := 20%float |};
     toasts := []; requests := [];
     pendingLoads := 0; pendingPurchases := 0; pendingTests := 0;
     timers := []; href := None |}.

Section Component.

(** [const { user } = useAuth()]: the page is shown to a signed-in
    user. *)
Variable user : User.t.

(** *** load *)

(** [load()] up to its [await]. *)
Definition load (w : State) : State :=
  send (GetAllProducts true) (setLoading true w).

(** [res.data ?? res], when it is an array. *)
Definition all_of (res : ApiResult) : option (list Product.t) :=
  match res with
  | ResData data => Some data
  | ResArray arr => Some arr
  | ResOther => None
  end.

(** [(p) => p.seller_id !== user.id] *)
Definition not_own (p : Product.t) : bool :=
  negb (Product.seller_id p =? User.id user).

(** [load()] from its [await] on: [try], [catch] and [finally]. *)
Definition load_settled (o : LoadOutcome) (w : State) : State :=
  let failed := toast (ToastError "Failed to load wholesaler products") in
  setLoading false
    match o with
    | LoadRejects => failed w
    | LoadResolves res =>
        match all_of res with
        | Some all => setWhProducts (filter not_own all) w
        | None => failed w
        end
    end.

(** The runs of [load] that end in its [catch]. *)
Definition load_fails (o : LoadOutcome) : Prop :=
  match o with
  | LoadRejects => True
  | LoadResolves res => all_of res = None
  end.

(** *** confirmPurchase *)

(** [payload]; [qty] and [markup] are numbers already, [Number] returns
    them as they are. *)
Definition payload_of (p : Product.t) (w : State) : Payload :=
  {| wholesaler_id := Product.seller_id p;
     product_id := Product.id p;
     retailer_id := User.id user;
     quantity := qty (hooks w);
     markup_percent := markup (hooks w) |}.

(** [confirmPurchase()] up to [await fetch(...)]. *)
Definition confirmPurchase (w : State) : State :=
  match selected (hooks w) with
  | None => toast (ToastError "Select a product") w
  | Some p => send (PostPurchase (payload_of p w)) w
  end.

(** The message of the [Error] thrown when [!resp.ok].  Whatever throws
    inside the inner [try] (the parse, the read of [detail] on [null], the
    conversion of [detail] to a string) does so before [errorMessage] is
    assigned, and the inner [catch] appends the raw text. *)
Definition http_error_message (resp : Response) : string :=
  let errorMessage := "HTTP " ++ Js.string_of_Z (status resp) ++ ": " in
  match parsed resp with
  | Js.ParseOk errorData =>
      match Js.get "detail" errorData with
      | Js.Value detail =>
          if Js.truthy detail then
            match Js.to_string detail with
            | Some printed => errorMessage ++ printed
            | None => errorMessage ++ text resp
            end
          else errorMessage ++ text resp
      | Js.Undefined => errorMessage ++ text resp
      | Js.ReadThrows => errorMessage ++ text resp
      end
  | Js.ParseThrows _ => errorMessage ++ text resp
  end.

Definition method_not_allowed : string :=
  "Server rejected POST method - check CORS configuration".
Definition cors_blocked : string :=
  "CORS blocked the request - check server CORS settings".
Definition network_error : string :=
  "Network error - check if server is running".

(** The outer [catch (err)], given [err.message]. *)
Definition purchase_failed (message : string) (w : State) : State :=
  if Js.includes "405" message then toast (ToastError method_not_allowed) w
  else if Js.includes "CORS" message then toast (ToastError cors_blocked) w
  else if Js.includes "Network Error" message
       then toast (ToastError network_error) w
  else toast (ToastError (if message =? "" then "Purchase failed ⚠"
                          else message)) w.

(** The statements after a successful [JSON.parse], [content] being
    [result.message || "Purchase successful!"]. *)
Definition purchase_succeeded (content : Js.json) (w : State) : State :=
  setTimeout {| delay := 1000; target := "/retailer/dashboard" |}
    (load
       (setMarkup 20%float
          (setQty 1%float
             (setSelected None
                (toast (ToastSuccess content) w))))).

(** [confirmPurchase()] from [await fetch(...)] on. *)
Definition purchase_settled (o : FetchOutcome) (w : State) : State :=
  match o with
  | FetchRejects message => purchase_failed message w
  | FetchResolves resp =>
      if negb (ok resp) then purchase_failed (http_error_message resp) w
      else
        match parsed resp with
        | Js.ParseThrows message => purchase_failed message w
        | Js.ParseOk result =>
            match Js.get "message" result with
            | Js.ReadThrows =>
                purchase_failed (Js.null_read_message "message") w
            | Js.Undefined =>
                purchase_succeeded (Js.JStr "Purchase successful!") w
            | Js.Value m =>
                purchase_succeeded
                  (if Js.truthy m then m
                   else Js.JStr "Purchase successful!") w
            end
        end
  end.

(** *** testEndpoint *)

Definition testEndpoint (w : State) : State := send GetPurchaseTest w.

(** [succeeded] tells whether both [fetch] and [testResp.json()]
    resolved. *)
Definition test_settled (succeeded : bool) (w : State) : State :=
  if succeeded then
    toast (ToastSuccess (Js.JStr "Endpoint test successful!")) w
  else toast (ToastError "Endpoint test failed - check server") w.

(** *** Rendering *)

(** [(selected.price * (1 + markup / 100)).toFixed(2)] *)
Definition retail_price (price markup : float) : Js.number_text :=
  Js.toFixed 2 (price * (1 + markup / 100))%float.

(** [qty > selected.stock] *)
Definition over_stock (p : Product.t) (w : State) : bool :=
  (Product.stock p <? qty (hooks w))%float.

(** The purchase modal. *)
Record Modal : Type := {
  product : Product.t;
  quantity_input : float;
  markup_input : float;
  retail_price_shown : Js.number_text;
  confirm_disabled : bool;
  confirm_label : string;
  stock_warning : bool
}.

Definition modal_of (p : Product.t) (w : State) : Modal :=
  {| product := p;
     quantity_input := qty (hooks w);
     markup_input := markup (hooks w);
     retail_price_shown := retail_price (Product.price p) (markup (hooks w));
     confirm_disabled := over_stock p w;
     confirm_label := if over_stock p w then "Insufficient Stock"
                      else "Confirm Purchase";
     stock_warning := over_stock p w |}.

(** What the component returns: the loading indicator alone, or the page
    with its product cards, the "no products" notice and the modal. *)
Inductive View : Type :=
| LoadingProducts
| Rendered (cards : list Product.t) (no_products : bool)
           (modal : option Modal).

Definition render (w : State) : View :=
  if loading (hooks w) then LoadingProducts
  else
    Rendered (whProducts (hooks w))
             ((length (whProducts (hooks w)) =? 0)%nat
              && negb (loading (hooks w)))
             (match selected (hooks w) with
              | Some p => Some (modal_of p w)
              | None => None
              end).

(** The product cards on screen. *)
Definition cards_shown (w : State) : list Product.t :=
  match render w with
  | LoadingProducts => []
  | Rendered cards _ _ => cards
  end.

(** The modal on screen, if any. *)
Definition modal_shown (w : State) : option Modal :=
  match render w with
  | LoadingProducts => None
  | Rendered _ _ modal => modal
  end.

(** *** Events *)

(** What can happen to the mounted component: the user acts on an element
    that is on screen, a request settles, a timer fires.  A change of an
    input carries [Number(e.target.value)]; the [min] and [max] of the
    inputs leave it free, they bound the arrows of the field and not what
    is typed. *)
Inductive Event : Type :=
| ClickSelect (card : nat)
| ClickInfo (card : nat)
| ClickTestConnection
| ChangeQuantity (number : float)
| ChangeMarkup (number : float)
| ClickCancel
| ClickConfirm
| LoadSettles (o : LoadOutcome)
| PurchaseSettles (o : FetchOutcome)
| TestSettles (succeeded : bool)
| TimerFires.

(** An event of the page proper, which exists only once the loading
    indicator is gone. *)
Definition on_page (w : State) (k : State) : State :=
  if loading (hooks w) then w else k.

(** An event of the modal, which exists only while a product is
    selected. *)
Definition on_modal (w : State) (k : Product.t -> State) : State :=
  on_page w match selected (hooks w) with
            | Some p => k p
            | None => w
            end.

Definition step (w : State) (e : Event) : State :=
  match e with
  | ClickSelect i =>
      on_page w match nth_error (whProducts (hooks w)) i with
                | Some p => setSelected (Some p) w
                | None => w
                end
  | ClickInfo i =>
      on_page w match nth_error (whProducts (hooks w)) i with
                | Some p =>
                    toast (ToastInfo ("Seller: " ++ Product.seller_id p)) w
                | None => w
                end
  | ClickTestConnection => on_page w (testEndpoint w)
  | ChangeQuantity v => on_modal w (fun _ => setQty v w)
  | ChangeMarkup v => on_modal w (fun _ => setMarkup v w)
  | ClickCancel => on_modal w (fun _ => setSelected None w)
  | ClickConfirm =>
      on_modal w (fun p => if over_stock p w then w else confirmPurchase w)
  | LoadSettles o =>
      match pendingLoads w with
      | O => w
      | S _ => load_settled o (settled Products w)
      end
  | PurchaseSettles o =>
      match pendingPurchases w with
      | O => w
      | S _ => purchase_settled o (settled Purchase w)
      end
  | TestSettles b =>
      match pendingTests w with
      | O => w
      | S _ => test_settled b (settled PurchaseTest w)
      end
  | TimerFires =>
      match timers w with
      | [] => w
      | t :: rest => fire t rest w
      end
  end.

(** The events of [evs] in turn. *)
Definition run (evs : list Event) (w : State) : State :=
  fold_left step evs w.

(** The component once mounted: [useEffect(() => { load(); }, [])]. *)
Definition mounted : State := load initial.

(** *** What an event can do *)

(** The timer that [confirmPurchase] sets after a success. *)
Definition dashboard : Timer :=
  {| delay := 1000; target := "/retailer/dashboard" |}.

(** The handlers as a relation: an event is ignored (its element is not on
    screen, nothing of its kind is in flight), or it has one of these
    effects. *)
Inductive Transition (w : State) : State -> Prop :=
| Ignored : Transition w w
| Selected (p : Product.t) :
    loading (hooks w) = false ->
    In p (whProducts (hooks w)) ->
    Transition w (setSelected (Some p) w)
| InfoShown (p : Product.t) :
    loading (hooks w) = false ->
    Transition w (toast (ToastInfo ("Seller: " ++ Product.seller_id p)) w)
| TestStarted :
    loading (hooks w) = false ->
    Transition w (testEndpoint w)
| QuantityTyped (v : float) :
    loading (hooks w) = false ->
    Transition w (setQty v w)
| MarkupTyped (v : float) :
    loading (hooks w) = false ->
    Transition w (setMarkup v w)
| Cancelled :
    loading (hooks w) = false ->
    Transition w (setSelected None w)
| PurchaseSent (p : Product.t) :
    loading (hooks w) = false ->
    selected (hooks w) = Some p ->
    over_stock p w = false ->
    Transition w (send (PostPurchase (payload_of p w)) w)
| LoadSettled (o : LoadOutcome) :
    (1 <= pendingLoads w)%nat ->
    Transition w (load_settled o (settled Products w))
| PurchaseFailed (message : string) :
    (1 <= pendingPurchases w)%nat ->
    message <> "" ->
    Transition w (toast (ToastError message) (settled Purchase w))
| PurchaseSucceeded (content : Js.json) :
    (1 <= pendingPurchases w)%nat ->
    Js.truthy content = true ->
    Transition w (purchase_succeeded content (settled Purchase w))
| TestSettled (succeeded : bool) :
    (1 <= pendingTests w)%nat ->
    Transition w (test_settled succeeded (settled PurchaseTest w))
| TimerFired (t : Timer) (rest : list Timer) :
    timers w = t :: rest ->
    Transition w (fire t rest w).

(** What holds of the component from its mount on. *)
Record invariant (w : State) : Prop := {
  inv_loading :
    loading (hooks w) = true ->
    (1 <= pendingLoads w)%nat /\ selected (hooks w) = None;
  inv_products :
    forall p, In p (whProducts (hooks w)) ->
              Product.seller_id p <> User.id user;
  inv_selected :
    forall p, selected (hooks w) = Some p ->
              Product.seller_id p <> User.id user;
  inv_purchases :
    forall body, In (PostPurchase body) (requests w) ->
                 retailer_id body = User.id user
                 /\ wholesaler_id body <> User.id user;
  inv_in_flight :
    (1 <= pendingPurchases w)%nat ->
    exists body, In (PostPurchase body) (requests w);
  inv_timers :
    forall t, In t (timers w) -> t = dashboard;
  inv_href :
    href w = None \/ href w = Some "/retailer/dashboard";
  inv_left :
    timers w <> [] \/ href w <> None ->
    exists body, In (PostPurchase body) (requests w)
}.

End Component.

End Page.

(** ** A session, for the examples *)

Module Sample.

Definition retailer : User.t := User.make "r-7" "retailer".

Definition rice : Product.t :=
  Product.make "p-1" "w-3" "Rice" "Basmati, 25 kg" 100%float 10%float None.

(** A listing of the retailer's own. *)
Definition own : Product.t :=
  Product.make "p-2" "r-7" "Lentils" "Red, 10 kg" 80%float 5%float None.

(** The catalogue has arrived and the modal is open on [rice]. *)
Definition browsing : list Page.Event :=
  [ Page.LoadSettles (Page.LoadResolves (Page.ResData [rice; own]));
    Page.ClickSelect 0 ].

(** The retailer types a quantity of 0 and a markup of 500. *)
Definition zero_units : list Page.Event :=
  browsing ++ [ Page.ChangeQuantity 0%float; Page.ChangeMarkup 500%float ].

(** A 204 answer: success, and no body to parse. *)
Definition no_content : Page.Response :=
  {| Page.status := 204; Page.text := "";
     Page.parsed := Js.ParseThrows "Unexpected end of JSON input" |}.

(** The order service's answer to an accepted purchase. *)
Definition accepted : Page.Response :=
  {| Page.status := 200;
     Page.text :=
       "{" ++ Js.quoted "message" ++ ":" ++ Js.quoted "Purchase recorded"
       ++ "}";
     Page.parsed :=
       Js.ParseOk (Js.JObj [("message", Js.JStr "Purchase recorded")]) |}.

(** The order service refuses the method. *)
Definition refused : Page.Response :=
  {| Page.status := 405;
     Page.text :=
       "{" ++ Js.quoted "detail" ++ ":" ++ Js.quoted "Method Not Allowed"
       ++ "}";
     Page.parsed :=
       Js.ParseOk (Js.JObj [("detail", Js.JStr "Method Not Allowed")]) |}.

(** The states these sessions lead to. *)
Definition modal_open : Page.State :=
  Page.run retailer browsing Page.mounted.

(** No unit asked, at a markup of 500 percent. *)
Definition zero_asked : Page.State :=
  Page.run retailer zero_units Page.mounted.

(** Eleven units asked of a stock of ten. *)
Definition eleven_asked : Page.State :=
  Page.step retailer modal_open (Page.ChangeQuantity 11%float).

(** The purchase of [rice] has been sent and not yet answered. *)
Definition awaiting_answer : Page.State :=
  Page.step retailer modal_open Page.ClickConfirm.

(** The purchase went through and the refresh is under way. *)
Definition refreshing : Page.State :=
  Page.step retailer awaiting_answer
    (Page.PurchaseSettles (Page.FetchResolves accepted)).

(** Twice the purchase was sent, twice it went through: two refreshes
    are under way. *)
Definition two_refreshes : Page.State :=
  Page.run retailer
    [ Page.ClickConfirm;
      Page.PurchaseSettles (Page.FetchResolves accepted);
      Page.PurchaseSettles (Page.FetchResolves accepted) ]
    awaiting_answer.

(** The browser has left for the dashboard. *)
Definition gone : list Page.Event :=
  browsing ++
  [ Page.ClickConfirm; Page.PurchaseSettles (Page.FetchResolves accepted);
    Page.TimerFires ].

(** The order service has not enough of the product. *)
Definition out_of_stock : Page.Response :=
  {| Page.status := 400;
     Page.text :=
       "{" ++ Js.quoted "detail" ++ ":" ++ Js.quoted "Insufficient stock"
       ++ "}";
     Page.parsed :=
       Js.ParseOk (Js.JObj [("detail", Js.JStr "Insufficient stock")]) |}.

(** A 200 answer whose body is the JSON [null]. *)
Definition null_body : Page.Response :=
  {| Page.status := 200; Page.text := "null";
     Page.parsed := Js.ParseOk Js.JNull |}.

(** A gateway's plain-text answer that happens to mention 405. *)
Definition not_found : Page.Response :=
  {| Page.status := 404; Page.text := "No order 1405 on this server";
     Page.parsed := Js.ParseThrows "Unexpected token N in JSON" |}.

(** A validation report: two fields were refused. *)
Definition unprocessable : Page.Response :=
  {| Page.status := 422;
     Page.text := "(validation report)";
     Page.parsed :=
       Js.ParseOk
         (Js.JObj
            [("detail",
              Js.JArr [Js.JObj [("msg", Js.JStr "field required")];
                       Js.JObj [("msg", Js.JStr "value is not a number")]])])
  |}.

End Sample.

(** * Properties *)

(** ** The built-ins *)

Section JsFacts.

Import Js.

Lemma prefix_app (n post : string) : String.prefix n (n ++ post) = true.
Proof.
  induction n as [|c n IH]; simpl.
  - destruct post; reflexivity.
  - destruct (ascii_dec c c) as [_|ne]; [exact IH | now elim ne].
Qed.

Lemma includes_prefix (n s : string) :
  String.prefix n s = true -> includes n s = true.
Proof. destruct s; simpl; intros ->; reflexivity. Qed.

Lemma includes_here (n post : string) : includes n (n ++ post) = true.
Proof. apply includes_prefix, prefix_app. Qed.

Lemma includes_later (n : string) (c : ascii) (s : string) :
  includes n s = true -> includes n (String c s) = true.
Proof.
  intros H. change (includes n (String c s))
    with (if String.prefix n (String c s) then true else includes n s).
  destruct (String.prefix n (String c s)); [reflexivity | exact H].
Qed.

(** A string that has [n] somewhere inside includes it. *)
Lemma includes_inside (n pre post : string) :
  includes n (pre ++ n ++ post) = true.
Proof.
  induction pre as [|c pre IH]; simpl append.
  - apply includes_here.
  - apply includes_later, IH.
Qed.

(** *** Decimal digits *)

Lemma append_assoc (a b c : string) : (a ++ b) ++ c = a ++ b ++ c.
Proof. induction a as [|ch a IH]; simpl; [reflexivity | now rewrite IH]. Qed.

Lemma length_append (a b : string) :
  String.length (a ++ b) = (String.length a + String.length b)%nat.
Proof. induction a as [|ch a IH]; simpl; [reflexivity | now rewrite IH]. Qed.

Lemma substring_head (a b : string) :
  substring 0 (String.length a) (a ++ b) = a.
Proof.
  induction a as [|ch a IH]; simpl; [destruct b; reflexivity | now rewrite IH].
Qed.

Lemma substring_whole (b : string) : substring 0 (String.length b) b = b.
Proof. induction b as [|ch b IH]; simpl; [reflexivity | now rewrite IH]. Qed.

Lemma substring_tail (a b : string) :
  substring (String.length a) (String.length b) (a ++ b) = b.
Proof.
  induction a as [|ch a IH]; simpl; [apply substring_whole | exact IH].
Qed.

Lemma string_of_revapp (x y : uint) :
  NilEmpty.string_of_uint (revapp x y)
  = NilEmpty.string_of_uint (rev x) ++ NilEmpty.string_of_uint y.
Proof.
  unfold rev. revert y.
  induction x as [|x IH|x IH|x IH|x IH|x IH|x IH|x IH|x IH|x IH|x IH];
    intros y; simpl revapp; [reflexivity | ..];
    rewrite IH; symmetry; rewrite IH; simpl; rewrite append_assoc; reflexivity.
Qed.

Lemma to_lu_digit (p : positive) (r : N) :
  (r < 10)%N ->
  Unsigned.to_lu (10 * Npos p + r) = cons_digit r (Unsigned.to_lu (Npos p)).
Proof.
  intros Hr.
  assert (H0 := Unsigned.to_ldec_tenfold p).
  assert (E : (r = 0 \/ r = 1 \/ r = 2 \/ r = 3 \/ r = 4 \/ r = 5 \/ r = 6
               \/ r = 7 \/ r = 8 \/ r = 9)%N) by lia.
  repeat (destruct E as [-> | E]); try subst r; cbv [cons_digit];
    repeat match goal with
    | |- context [Unsigned.to_lu (?a + N.pos ?q)%N] =>
        let k := eval cbv in (N.pred (N.pos q)) in
        replace (a + N.pos q)%N with (N.succ (a + k)) by lia;
        rewrite Unsigned.to_lu_succ
    end;
    rewrite N.add_0_r, H0; reflexivity.
Qed.

Lemma string_of_Z_pos (p : positive) :
  string_of_Z (Zpos p)
  = NilEmpty.string_of_uint (rev (Unsigned.to_lu (Npos p))).
Proof.
  unfold string_of_Z. simpl.
  change (Pos.to_uint p) with (rev (Pos.to_little_uint p)).
  pose proof (Unsigned.to_uint_nonnil p) as H.
  unfold Pos.to_uint in H.
  destruct (rev (Pos.to_little_uint p)); [now elim H | reflexivity ..].
Qed.

Lemma string_of_Z_digit (q r : Z) :
  (0 < q)%Z -> (0 <= r < 10)%Z ->
  string_of_Z (10 * q + r) = string_of_Z q ++ string_of_Z r.
Proof.
  intros Hq Hr.
  destruct q as [|p|p]; try lia.
  assert (E : (10 * Z.pos p + r)%Z = Z.of_N (10 * Npos p + Z.to_N r)) by lia.
  destruct (10 * N.pos p + Z.to_N r)%N as [|p'] eqn:Ep'; [lia |].
  simpl Z.of_N in E. rewrite E, !string_of_Z_pos, <- Ep'.
  rewrite to_lu_digit by lia.
  assert (D : (r = 0 \/ r = 1 \/ r = 2 \/ r = 3 \/ r = 4 \/ r = 5 \/ r = 6
               \/ r = 7 \/ r = 8 \/ r = 9)%Z) by lia.
  repeat (destruct D as [-> | D]); try subst r; cbv [cons_digit Z.to_N];
    unfold rev at 1; simpl revapp; rewrite string_of_revapp; reflexivity.
Qed.

Lemma string_of_Z_digit_length (r : Z) :
  (0 <= r < 10)%Z -> String.length (string_of_Z r) = 1%nat.
Proof.
  intros Hr.
  assert (D : (r = 0 \/ r = 1 \/ r = 2 \/ r = 3 \/ r = 4 \/ r = 5 \/ r = 6
               \/ r = 7 \/ r = 8 \/ r = 9)%Z) by lia.
  repeat (destruct D as [-> | D]); try subst r; reflexivity.
Qed.

Lemma string_of_Z_nonempty (q : Z) :
  (0 < q)%Z -> (1 <= String.length (string_of_Z q))%nat.
Proof.
  intros Hq.
  destruct (Z_lt_le_dec q 10) as [Hsmall | Hbig].
  - rewrite string_of_Z_digit_length; lia.
  - assert (Hr : (0 <= q mod 10 < 10)%Z) by (apply Z.mod_pos_bound; lia).
    assert (Hq' : (0 < q / 10)%Z) by (apply Z.div_str_pos; lia).
    rewrite (Z.div_mod q 10) by lia.
    rewrite (string_of_Z_digit _ _ Hq' Hr), length_append.
    rewrite (string_of_Z_digit_length _ Hr). lia.
Qed.

Lemma fixed_point_two_small :
  forallb (fun i =>
             let n := Z.of_nat i in
             fixed_point 2 n
             =? string_of_Z (n / 100) ++ "."
                ++ string_of_Z (n / 10 mod 10) ++ string_of_Z (n mod 10))
          (seq 0 100) = true.
Proof. vm_compute. reflexivity. Qed.

Lemma fixed_point_two (n : Z) :
  (0 <= n)%Z ->
  fixed_point 2 n
  = string_of_Z (n / 100) ++ "."
    ++ string_of_Z (n / 10 mod 10) ++ string_of_Z (n mod 10).
Proof.
  intros Hn. destruct (Z_lt_le_dec n 100) as [Hsmall | Hbig].
  - pose proof fixed_point_two_small as H.
    rewrite forallb_forall in H.
    specialize (H (Z.to_nat n)). rewrite Z2Nat.id in H by lia.
    apply String.eqb_eq, H, in_seq. lia.
  - assert (Hd0 : (0 <= n mod 10 < 10)%Z) by (apply Z.mod_pos_bound; lia).
    assert (Hd1 : (0 <= n / 10 mod 10 < 10)%Z)
      by (apply Z.mod_pos_bound; lia).
    assert (Hq : (0 < n / 100)%Z) by (apply Z.div_str_pos; lia).
    assert (Hq1 : (0 < n / 10)%Z) by (apply Z.div_str_pos; lia).
    assert (E1 : (n / 10 / 10 = n / 100)%Z) by (rewrite Z.div_div by lia; reflexivity).
    assert (Em : string_of_Z n
                 = string_of_Z (n / 100)
                   ++ string_of_Z (n / 10 mod 10)
                   ++ string_of_Z (n mod 10)).
    { rewrite (Z.div_mod n 10) at 1 by lia.
      rewrite string_of_Z_digit by assumption.
      rewrite (Z.div_mod (n / 10) 10) at 1 by lia.
      rewrite string_of_Z_digit, E1, append_assoc by (rewrite ?E1; assumption).
      reflexivity. }
    pose proof (string_of_Z_nonempty _ Hq) as Hlen.
    unfold fixed_point. rewrite Em. simpl Nat.eqb. cbv iota.
    set (a := string_of_Z (n / 100)) in *.
    set (b := string_of_Z (n / 10 mod 10) ++ string_of_Z (n mod 10)).
    assert (Hb : String.length b = 2%nat).
    { unfold b. rewrite length_append, !string_of_Z_digit_length; lia. }
    rewrite length_append, Hb.
    destruct (String.length a + 2 <=? 2)%nat eqn:Hk;
      [apply Nat.leb_le in Hk; lia |].
    replace (String.length a + 2 - 2)%nat with (String.length a) by lia.
    rewrite substring_head. rewrite <- Hb at 1. rewrite substring_tail.
    reflexivity.
Qed.

(** *** Reading a key *)

Lemma last_binding_none (key : string) (fields : list (string * json)) :
  (forall x : json, ~ In (key, x) fields) ->
  last_binding key fields = None.
Proof.
  induction fields as [| [k v] rest IH]; intros Hnone; [reflexivity |].
  simpl. rewrite IH by (intros x Hx; apply (Hnone x); now right).
  destruct (k =? key) eqn:E; [| reflexivity].
  apply String.eqb_eq in E. subst k. elim (Hnone v). now left.
Qed.

Lemma last_binding_some
    (key : string) (x : json) (fields : list (string * json)) :
  In (key, x) fields -> last_binding key fields <> None.
Proof.
  induction fields as [| [k v] rest IH]; intros Hin; [contradiction |].
  simpl. destruct Hin as [[= -> ->] | Hin].
  - destruct (last_binding key rest); [discriminate |].
    rewrite String.eqb_refl. discriminate.
  - destruct (last_binding key rest); [discriminate | now elim IH].
Qed.

Lemma last_binding_last
    (key : string) (x : json) (before after : list (string * json)) :
  (forall later : json, ~ In (key, later) after) ->
  last_binding key (before ++ (key, x) :: after) = Some x.
Proof.
  intros Hlast. induction before as [| [k v] before IH]; simpl.
  - rewrite (last_binding_none key after Hlast), String.eqb_refl.
    reflexivity.
  - rewrite IH. reflexivity.
Qed.

(** [get] finds the value that [binds] describes. *)
Lemma get_binds (key : string) (x v : json) :
  binds key x v -> get key v = Value x.
Proof.
  intros (before & after & -> & Hlast). simpl.
  rewrite (last_binding_last key x before after Hlast). reflexivity.
Qed.

Lemma get_lacks (key : string) (v : json) :
  lacks key v -> get key v = Undefined.
Proof.
  destruct v; simpl; try reflexivity; [contradiction |].
  intros Hnone. rewrite (last_binding_none key fields Hnone). reflexivity.
Qed.

(** A value other than [null] binds a key or lacks it. *)
Lemma binds_or_lacks (key : string) (v : json) :
  v <> JNull -> lacks key v \/ exists x : json, binds key x v.
Proof.
  intros Hnull.
  destruct v as [| b | x | str | items | fields];
    [now elim Hnull | left; exact I | left; exact I | left; exact I
     | left; exact I |].
  clear Hnull. simpl. induction fields as [| [k v] rest IH]; [left; intros x [] |].
  destruct IH as [Hnone | (x & before & after & [= ->] & Hlast)].
  - destruct (String.eqb_spec k key) as [-> | Hk].
    + right. exists v, [], rest. split; [reflexivity | exact Hnone].
    + left. intros x [[= E _] | Hin]; [now elim Hk | exact (Hnone x Hin)].
  - right. exists x, ((k, v) :: before), after.
    split; [reflexivity | exact Hlast].
Qed.

(** *** Rounding *)

Local Open Scope Q_scope.

Lemma scale_pos (f : nat) : 0 < inject_Z (10 ^ Z.of_nat f).
Proof.
  change 0 with (inject_Z 0). rewrite <- Zlt_Qlt.
  apply Z.pow_pos_nonneg; lia.
Qed.

(** [nearest_scaled] is within a half of the scaled number, the upper half
    included. *)
Lemma nearest_scaled_bracket (f : nat) (x : Q) :
  let y := x * inject_Z (10 ^ Z.of_nat f) in
  y - (1 # 2) < inject_Z (nearest_scaled f x) <= y + (1 # 2).
Proof.
  intros y. unfold nearest_scaled. fold y.
  pose proof (Qfloor_le (y + (1 # 2))) as Hle.
  pose proof (Qlt_floor (y + (1 # 2))) as Hlt.
  rewrite inject_Z_plus in Hlt. change (inject_Z 1) with 1 in Hlt.
  split; lra.
Qed.

Lemma Qabs_lower (a : Q) : a <= Qabs a /\ - a <= Qabs a.
Proof.
  split; [apply Qle_Qabs|]. rewrite <- Qabs_opp. apply Qle_Qabs.
Qed.

Lemma inject_Z_succ_le (a b : Z) : (a < b)%Z -> inject_Z a + 1 <= inject_Z b.
Proof.
  intros H. change 1 with (inject_Z 1).
  rewrite <- inject_Z_plus, <- Zle_Qle. lia.
Qed.

Lemma nearest_scaled_closest (f : nat) (x : Q) (k : Z) :
  let y := x * inject_Z (10 ^ Z.of_nat f) in
  let n := nearest_scaled f x in
  Qabs (inject_Z n - y) <= Qabs (inject_Z k - y)
  /\ (Qabs (inject_Z n - y) == Qabs (inject_Z k - y) -> (k <= n)%Z).
Proof.
  intros y n.
  destruct (nearest_scaled_bracket f x) as [Hlo Hhi]. fold y n in Hlo, Hhi.
  assert (Hn : Qabs (inject_Z n - y) <= 1 # 2)
    by (apply Qabs_Qle_condition; split; lra).
  destruct (Qabs_lower (inject_Z k - y)) as [Hk1 Hk2].
  destruct (Z_lt_le_dec n k) as [Hgt | Hle].
  - pose proof (inject_Z_succ_le _ _ Hgt).
    split; [lra | intros E; rewrite E in Hn; lra].
  - split; [| intros _; exact Hle].
    destruct (Z.eq_dec k n) as [-> | Hne]; [apply Qle_refl |].
    assert (Hlt : (k < n)%Z) by lia.
    pose proof (inject_Z_succ_le _ _ Hlt). lra.
Qed.

(** Dividing by the scale does not change which integer is closest. *)
Lemma Qabs_unscale (s a x : Q) :
  0 < s -> Qabs (a / s - x) == Qabs (a - x * s) * / s.
Proof.
  intros Hs.
  assert (E : a / s - x == (a - x * s) * / s) by (field; lra).
  rewrite E, Qabs_Qmult.
  rewrite (Qabs_pos (/ s)); [reflexivity |].
  apply Qlt_le_weak, Qinv_lt_0_compat, Hs.
Qed.

(** [nearest_scaled] computes the integer that step 11 asks for. *)
Lemma nearest_scaled_rounds (f : nat) (x : Q) :
  rounds_to f x (nearest_scaled f x).
Proof.
  unfold rounds_to. cbv zeta. intros k.
  set (scale := inject_Z (10 ^ Z.of_nat f)).
  pose proof (scale_pos f) as Hs. fold scale in Hs.
  assert (Hi : 0 < / scale) by (apply Qinv_lt_0_compat, Hs).
  destruct (nearest_scaled_closest f x k) as [Hle Htie].
  fold scale in Hle, Htie.
  rewrite !(Qabs_unscale scale) by exact Hs.
  split.
  - apply Qmult_le_compat_r; [exact Hle | lra].
  - intros E. apply Htie.
    apply (Qmult_inj_r _ _ (/ scale)); [lra | exact E].
Qed.

Lemma magnitude_pos (m : positive) (e : Z) : 0 < magnitude m e.
Proof.
  unfold magnitude. destruct (0 <=? e)%Z eqn:He.
  - change 0 with (inject_Z 0). rewrite <- Zlt_Qlt.
    apply Z.leb_le in He. apply Z.mul_pos_pos; [lia |].
    apply Z.pow_pos_nonneg; lia.
  - reflexivity.
Qed.

Lemma Qabs_magnitude (s : bool) (m : positive) (e : Z) :
  Qabs (if s then - magnitude m e else magnitude m e) = magnitude m e.
Proof.
  pose proof (magnitude_pos m e) as H. revert H.
  destruct (magnitude m e) as [num den]. unfold Qlt. simpl. intros H.
  destruct s; unfold Qabs, Qopp; simpl; f_equal; lia.
Qed.

Lemma sign_text_magnitude (s : bool) (m : positive) (e : Z) :
  sign_text (if s then - magnitude m e else magnitude m e)
  = (if s then "-" else "")%string.
Proof.
  pose proof (magnitude_pos m e) as H. unfold sign_text.
  destruct s; destruct (Qlt_le_dec _ 0) as [Hlt | Hge];
    try reflexivity; exfalso; lra.
Qed.

Lemma nearest_scaled_nonneg (f : nat) (x : Q) :
  0 <= x -> (0 <= nearest_scaled f x)%Z.
Proof.
  intros Hx. unfold nearest_scaled.
  change 0%Z with (Qfloor 0). apply Qfloor_resp_le.
  pose proof (scale_pos f) as Hs.
  assert (0 <= x * inject_Z (10 ^ Z.of_nat f)) by (apply Qmult_le_0_compat; lra).
  lra.
Qed.

(** Below 10^21 in magnitude, [toFixed] prints the digits of the rounded
    number, [f] of them after the point. *)
Lemma toFixed_rounds (f : nat) (x : float) (v : Q) :
  value x = Some v ->
  Qabs v < inject_Z (10 ^ 21) ->
  exists n : Z,
    (0 <= n)%Z
    /\ rounds_to f (Qabs v) n
    /\ toFixed f x = Text (sign_text v ++ fixed_point f n).
Proof.
  unfold value, toFixed. destruct (Prim2SF x) as [s | s | | s m e];
    try discriminate; intros [= <-] Hsmall.
  - exists (nearest_scaled f 0).
    split; [apply nearest_scaled_nonneg; lra |].
    split; [apply nearest_scaled_rounds | reflexivity].
  - rewrite Qabs_magnitude in *. rewrite sign_text_magnitude.
    pose proof (magnitude_pos m e) as Hpos.
    exists (nearest_scaled f (magnitude m e)).
    split; [apply nearest_scaled_nonneg; lra |].
    split; [apply nearest_scaled_rounds |].
    destruct (Qle_bool _ _) eqn:Hbig; [| reflexivity].
    apply Qle_bool_iff in Hbig. exfalso. lra.
Qed.

(** Elsewhere it prints the name of what is not a number, or leaves the
    printing to [Number::toString]. *)
Lemma toFixed_otherwise (f : nat) (x : float) :
  match value x with
  | None =>
      toFixed f x = Text "NaN" \/ toFixed f x = Text "Infinity"
      \/ toFixed f x = Text "-Infinity"
  | Some v =>
      inject_Z (10 ^ 21) <= Qabs v -> toFixed f x = ViaToString x
  end.
Proof.
  unfold value, toFixed. destruct (Prim2SF x) as [s | s | | s m e].
  - intros H. exfalso. revert H. apply Qlt_not_le. reflexivity.
  - destruct s; auto.
  - auto.
  - rewrite Qabs_magnitude. intros H.
    apply Qle_bool_iff in H. rewrite H. reflexivity.
Qed.

(** With two decimals asked for, these digits are those of the whole
    part, the point, the tenths and the hundredths. *)
Lemma toFixed_two_decimals (x : float) (v : Q) :
  value x = Some v ->
  Qabs v < inject_Z (10 ^ 21) ->
  exists n : Z,
    (0 <= n)%Z
    /\ rounds_to 2 (Qabs v) n
    /\ toFixed 2 x
       = Text (sign_text v ++ string_of_Z (n / 100) ++ "."
               ++ string_of_Z (n / 10 mod 10) ++ string_of_Z (n mod 10)).
Proof.
  intros Hv Hsmall.
  destruct (toFixed_rounds 2 x v Hv Hsmall) as (n & Hn & Hround & Htext).
  exists n. rewrite <- (fixed_point_two n Hn). auto.
Qed.

End JsFacts.

(** ** The page *)

Section PageFacts.

Import Page.

Variable user : User.t.

(** Splits on whatever a [match] or an [if] of the goal inspects. *)
Ltac split_cases :=
  repeat match goal with
         | |- context [match ?x with _ => _ end] => destruct x eqn:?
         end.

Lemma app_one_neq {A : Type} (l : list A) (x : A) : l <> (l ++ [x])%list.
Proof.
  intros E. apply (f_equal (@length A)) in E.
  rewrite length_app in E. simpl in E. lia.
Qed.

(** C1: while a product is selected, a quantity above its stock disables
    the Confirm Purchase button of the modal on screen (relabelled
    Insufficient Stock) and a click on it changes nothing; hence a click
    that does send a purchase sends a quantity that is not above the stock
    of the selected product. *)
Theorem confirm_blocked_over_stock (w : State) (p : Product.t) :
  selected (hooks w) = Some p ->
  ((Product.stock p <? qty (hooks w))%float = true ->
   (forall m : Modal,
       modal_shown w = Some m ->
       confirm_disabled m = true /\ confirm_label m = "Insufficient Stock")
   /\ step user w ClickConfirm = w)
  /\ (forall body : Payload,
        requests (step user w ClickConfirm)
        = (requests w ++ [PostPurchase body])%list ->
        quantity body = qty (hooks w)
        /\ (Product.stock p <? quantity body)%float = false).
Proof.
  intros Hsel. split.
  - intros Hover. split.
    + intros m. unfold modal_shown, render. rewrite Hsel.
      destruct (loading (hooks w)); [discriminate |].
      intros [= <-]. unfold modal_of, over_stock. simpl.
      rewrite Hover. split; reflexivity.
    + unfold step, on_modal, on_page, over_stock. rewrite Hsel, Hover.
      destruct (loading (hooks w)); reflexivity.
  - intros body. unfold step, on_modal, on_page, over_stock, confirmPurchase.
    rewrite Hsel.
    destruct (loading (hooks w));
      [intros E; now apply app_one_neq in E |].
    destruct (Product.stock p <? qty (hooks w))%float eqn:Hover;
      [intros E; now apply app_one_neq in E |].
    simpl. intros E. apply app_inv_head in E. injection E as <-.
    simpl. split; [reflexivity | exact Hover].
Qed.

Lemma not_own_spec (p : Product.t) :
  not_own user p = true <-> Product.seller_id p <> User.id user.
Proof.
  unfold not_own. rewrite negb_true_iff. apply String.eqb_neq.
Qed.

(** The [catch] of [confirmPurchase] only shows a toast. *)
Lemma purchase_failed_hooks (message : string) (w : State) :
  hooks (purchase_failed message w) = hooks w.
Proof.
  unfold purchase_failed.
  destruct (Js.includes "405" message); [reflexivity |].
  destruct (Js.includes "CORS" message); [reflexivity |].
  destruct (Js.includes "Network Error" message); reflexivity.
Qed.

(** A settled purchase leaves the component as it was, or resets the
    form and puts the loading indicator up. *)
Lemma purchase_settled_hooks (o : FetchOutcome) (w : State) :
  hooks (purchase_settled o w) = hooks w
  \/ hooks (purchase_settled o w)
     = {| whProducts := whProducts (hooks w); loading := true;
          selected := None; qty := 1%float; markup := 20%float |}.
Proof.
  unfold purchase_settled.
  destruct o as [message | resp]; [left; apply purchase_failed_hooks |].
  destruct (negb (ok resp)); [left; apply purchase_failed_hooks |].
  destruct (parsed resp) as [result | message];
    [| left; apply purchase_failed_hooks].
  destruct (Js.get "message" result) as [m | |];
    [right; reflexivity | right; reflexivity
     | left; apply purchase_failed_hooks].
Qed.

Lemma test_settled_hooks (succeeded : bool) (w : State) :
  hooks (test_settled succeeded w) = hooks w.
Proof. destruct succeeded; reflexivity. Qed.

(** The events of the user leave [whProducts] alone. *)
Lemma on_page_whProducts (w k : State) :
  whProducts (hooks k) = whProducts (hooks w) ->
  whProducts (hooks (on_page w k)) = whProducts (hooks w).
Proof. unfold on_page. destruct (loading (hooks w)); auto. Qed.

Lemma on_modal_whProducts (w : State) (k : Product.t -> State) :
  (forall p, whProducts (hooks (k p)) = whProducts (hooks w)) ->
  whProducts (hooks (on_modal w k)) = whProducts (hooks w).
Proof.
  intros H. unfold on_modal. apply on_page_whProducts.
  destruct (selected (hooks w)); auto.
Qed.

(** The only writer of [whProducts] is [load], which stores a filtered
    list. *)
Lemma step_whProducts (w : State) (e : Event) :
  whProducts (hooks (step user w e)) = whProducts (hooks w)
  \/ exists all : list Product.t,
       whProducts (hooks (step user w e)) = filter (not_own user) all.
Proof.
  destruct e as [i | i | | v | v | | | o | o | b |]; simpl step.
  - left. apply on_page_whProducts.
    destruct (nth_error _ i); reflexivity.
  - left. apply on_page_whProducts.
    destruct (nth_error _ i); reflexivity.
  - left. apply on_page_whProducts. reflexivity.
  - left. apply on_modal_whProducts. reflexivity.
  - left. apply on_modal_whProducts. reflexivity.
  - left. apply on_modal_whProducts. reflexivity.
  - left. apply on_modal_whProducts. intros p.
    unfold confirmPurchase.
    destruct (over_stock p w), (selected (hooks w)); reflexivity.
  - destruct (pendingLoads w); [left; reflexivity |].
    unfold load_settled.
    destruct o as [| res]; [left; reflexivity |].
    destruct (all_of res) as [all |]; [right; exists all | left];
      reflexivity.
  - destruct (pendingPurchases w); [left; reflexivity |].
    destruct (purchase_settled_hooks o (settled Purchase w)) as [-> | ->];
      left; reflexivity.
  - destruct (pendingTests w); [left; reflexivity |].
    rewrite test_settled_hooks. left; reflexivity.
  - destruct (timers w); left; reflexivity.
Qed.

(** No listing of the user's own is ever stored. *)
Lemma stored_not_own (evs : list Event) (w : State) :
  Forall (fun p => Product.seller_id p <> User.id user)
         (whProducts (hooks w)) ->
  Forall (fun p => Product.seller_id p <> User.id user)
         (whProducts (hooks (run user evs w))).
Proof.
  revert w. induction evs as [|e evs IH]; intros w Hw; [exact Hw |].
  apply IH. destruct (step_whProducts w e) as [-> | [all ->]]; [exact Hw |].
  apply Forall_forall. intros p Hp. apply filter_In in Hp.
  apply not_own_spec, Hp.
Qed.

Lemma cards_shown_stored (w : State) (p : Product.t) :
  In p (cards_shown w) -> In p (whProducts (hooks w)).
Proof.
  unfold cards_shown, render. destruct (loading (hooks w)); simpl; tauto.
Qed.

(** C2: when the catalogue arrives, the list stored is the fetched list
    filtered by [seller_id !== user.id]; and whatever happens after the
    component is mounted, no card on screen shows a product whose seller
    is the current user. *)
Theorem own_listings_excluded :
  (forall (w : State) (res : ApiResult) (all : list Product.t),
      all_of res = Some all ->
      whProducts (hooks (load_settled user (LoadResolves res) w))
      = filter (fun p => negb (Product.seller_id p =? User.id user)) all)
  /\ (forall (evs : list Event) (p : Product.t),
        In p (cards_shown (run user evs mounted)) ->
        Product.seller_id p <> User.id user).
Proof.
  split.
  - intros w res all Hall. unfold load_settled. rewrite Hall. reflexivity.
  - intros evs p Hp. apply cards_shown_stored in Hp.
    pose proof (stored_not_own evs mounted (Forall_nil _)) as Hinv.
    rewrite Forall_forall in Hinv. exact (Hinv p Hp).
Qed.

(** C8: called with nothing selected, [confirmPurchase] shows the
    validation error at once, sends no request and leaves the state of
    the component as it was. *)
Theorem confirm_without_selection (w : State) :
  selected (hooks w) = None ->
  toasts (confirmPurchase user w)
  = (toasts w ++ [ToastError "Select a product"])%list
  /\ requests (confirmPurchase user w) = requests w
  /\ pendingPurchases (confirmPurchase user w) = pendingPurchases w
  /\ pendingLoads (confirmPurchase user w) = pendingLoads w
  /\ pendingTests (confirmPurchase user w) = pendingTests w
  /\ timers (confirmPurchase user w) = timers w
  /\ href (confirmPurchase user w) = href w
  /\ hooks (confirmPurchase user w) = hooks w.
Proof.
  intros Hsel. unfold confirmPurchase. rewrite Hsel. simpl. tauto.
Qed.

(** C9: the payload sent by [confirmPurchase] takes [wholesaler_id] from
    the selected product's [seller_id], [product_id] from its [id] and
    [retailer_id] from the session user's [id]. *)
Theorem payload_identifiers (w : State) (p : Product.t) :
  selected (hooks w) = Some p ->
  exists body : Payload,
    requests (confirmPurchase user w)
    = (requests w ++ [PostPurchase body])%list
    /\ wholesaler_id body = Product.seller_id p
    /\ product_id body = Product.id p
    /\ retailer_id body = User.id user
    /\ quantity body = qty (hooks w)
    /\ markup_percent body = markup (hooks w).
Proof.
  intros Hsel. exists (payload_of user p w).
  unfold confirmPurchase. rewrite Hsel. simpl. tauto.
Qed.

(** C10: a click on the Select button of a card stores that product as the
    selection and changes nothing else; the quantity and the markup keep
    the values they had, whichever product was selected before. *)
Theorem select_keeps_quantity_and_markup
    (w : State) (card : nat) (p : Product.t) :
  loading (hooks w) = false ->
  nth_error (whProducts (hooks w)) card = Some p ->
  let w' := step user w (ClickSelect card) in
  selected (hooks w') = Some p
  /\ qty (hooks w') = qty (hooks w)
  /\ markup (hooks w') = markup (hooks w)
  /\ whProducts (hooks w') = whProducts (hooks w)
  /\ loading (hooks w') = loading (hooks w)
  /\ toasts w' = toasts w
  /\ requests w' = requests w
  /\ timers w' = timers w
  /\ href w' = href w
  /\ (pendingLoads w', pendingPurchases w', pendingTests w')
     = (pendingLoads w, pendingPurchases w, pendingTests w).
Proof.
  intros Hloaded Hcard. unfold step, on_page. rewrite Hloaded, Hcard.
  simpl. tauto.
Qed.

(** C3, as amended: the modal shows [price * (1 + markup / 100)], computed
    in binary64 as the page does, rounded to two decimals: with [n] the integer for
    which [n / 100] is closest to the magnitude of the product (the larger
    one on a tie), it shows the sign, the whole part [n / 100], a point,
    and the two digits of [n mod 100]; a price of 100 at a markup of 20
    shows 120.00.  This holds wherever [toFixed] prints digits, that is
    when the product is a number below 10^21 in magnitude.  Rendering is a
    function of the state and yields no state: it changes nothing. *)
Theorem retail_price_rounded (w : State) (p : Product.t) (v : Q) :
  loading (hooks w) = false ->
  selected (hooks w) = Some p ->
  Js.value (Product.price p * (1 + markup (hooks w) / 100))%float = Some v ->
  (Qabs v < inject_Z (10 ^ 21))%Q ->
  retail_price 100%float 20%float = Js.Text "120.00"
  /\ exists (m : Modal) (n : Z),
       modal_shown w = Some m
       /\ (0 <= n)%Z
       /\ Js.rounds_to 2 (Qabs v) n
       /\ retail_price_shown m
          = Js.Text (Js.sign_text v ++ Js.string_of_Z (n / 100) ++ "."
                     ++ Js.string_of_Z (n / 10 mod 10)
                     ++ Js.string_of_Z (n mod 10)).
Proof.
  intros Hloaded Hsel Hv Hsmall. split; [vm_compute; reflexivity |].
  destruct (toFixed_two_decimals _ v Hv Hsmall) as (n & Hn & Hround & Htext).
  exists (modal_of p w), n.
  split; [| split; [exact Hn | split; [exact Hround | exact Htext]]].
  unfold modal_shown, render. rewrite Hloaded, Hsel. reflexivity.
Qed.

(** The [Error] thrown on a 405 answer mentions the status. *)
Lemma http_405_message (resp : Response) :
  status resp = 405%Z ->
  Js.includes "405" (http_error_message resp) = true.
Proof.
  intros H. unfold http_error_message. rewrite H.
  split_cases; reflexivity.
Qed.

(** The [catch] shows a message that has none of its three keywords as
    it is. *)
Lemma purchase_failed_plain (message : string) (w : State) :
  message <> "" ->
  Js.includes "405" message = false ->
  Js.includes "CORS" message = false ->
  Js.includes "Network Error" message = false ->
  purchase_failed message w = toast (ToastError message) w.
Proof.
  intros Hsome H405 Hcors Hnet. unfold purchase_failed.
  rewrite H405, Hcors, Hnet.
  apply String.eqb_neq in Hsome. rewrite Hsome. reflexivity.
Qed.

(** C6: a purchase answered outside 200-299 ends in the [catch] with the
    message [HTTP <status>: ] followed by the [detail] of the parsed body
    when the body is an object that has a truthy one (the string itself
    when it is a string, its conversion to a string otherwise), and by
    the raw text of the body in every other case: a body that is not
    JSON, [null], a value without [detail], a falsy [detail], a [detail]
    whose conversion throws.  The toast shows that message unless it
    holds one of the three keywords; on status 405 it is the
    method-not-allowed guidance, which is not the network-error one. *)
Theorem purchase_http_failure (w : State) (resp : Response) :
  ok resp = false ->
  let message := http_error_message resp in
  let heading := "HTTP " ++ Js.string_of_Z (status resp) ++ ": " in
  purchase_settled (FetchResolves resp) w = purchase_failed message w
  /\ (forall (errorData : Js.json) (detail : string),
        parsed resp = Js.ParseOk errorData ->
        Js.binds "detail" (Js.JStr detail) errorData ->
        detail <> "" ->
        message = heading ++ detail)
  /\ (forall (errorData detail : Js.json) (printed : string),
        parsed resp = Js.ParseOk errorData ->
        Js.binds "detail" detail errorData ->
        Js.truthy detail = true ->
        Js.to_string detail = Some printed ->
        message = heading ++ printed)
  /\ ((exists complaint : string, parsed resp = Js.ParseThrows complaint)
      \/ parsed resp = Js.ParseOk Js.JNull
      \/ (exists errorData : Js.json,
             parsed resp = Js.ParseOk errorData
             /\ Js.lacks "detail" errorData)
      \/ (exists errorData detail : Js.json,
             parsed resp = Js.ParseOk errorData
             /\ Js.binds "detail" detail errorData
             /\ (Js.truthy detail = false
                 \/ Js.to_string detail = None)) ->
      message = heading ++ text resp)
  /\ (Js.includes "405" message = false ->
      Js.includes "CORS" message = false ->
      Js.includes "Network Error" message = false ->
      toasts (purchase_settled (FetchResolves resp) w)
      = (toasts w ++ [ToastError message])%list)
  /\ (status resp = 405%Z ->
      toasts (purchase_settled (FetchResolves resp) w)
      = (toasts w ++ [ToastError method_not_allowed])%list
      /\ method_not_allowed <> network_error).
Proof.
  intros Hok message heading.
  assert (Hcatch : purchase_settled (FetchResolves resp) w
                   = purchase_failed message w)
    by (unfold purchase_settled; rewrite Hok; reflexivity).
  assert (Hprinted : forall (errorData detail : Js.json) (printed : string),
             parsed resp = Js.ParseOk errorData ->
             Js.binds "detail" detail errorData ->
             Js.truthy detail = true ->
             Js.to_string detail = Some printed ->
             message = heading ++ printed).
  { intros errorData detail printed Hparsed Hbinds Htruthy Hto.
    unfold message, http_error_message.
    rewrite Hparsed, (get_binds _ _ _ Hbinds), Htruthy, Hto. reflexivity. }
  split; [exact Hcatch |]. split; [| split; [exact Hprinted |]].
  - intros errorData detail Hparsed Hbinds Hsome.
    apply (Hprinted errorData (Js.JStr detail) detail Hparsed Hbinds);
      [| reflexivity].
    simpl. now apply negb_true_iff, String.eqb_neq.
  - split; [| split].
    + unfold message, http_error_message.
      intros [[complaint ->]
             | [-> | [(errorData & -> & Hlacks)
                     | (errorData & detail & -> & Hbinds & Hbad)]]];
        try reflexivity.
      * rewrite (get_lacks _ _ Hlacks). reflexivity.
      * rewrite (get_binds _ _ _ Hbinds).
        destruct Hbad as [-> | Hthrows]; [reflexivity |].
        rewrite Hthrows. destruct (Js.truthy detail); reflexivity.
    + intros H405 Hcors Hnet. rewrite Hcatch.
      rewrite purchase_failed_plain; try assumption; [reflexivity |].
      unfold message, http_error_message.
      destruct (parsed resp) as [errorData | ?];
        [destruct (Js.get "detail" errorData) as [detail | |];
         [destruct (Js.truthy detail);
          [destruct (Js.to_string detail) |] |..] |];
        discriminate.
    + intros H405. split; [| discriminate].
      rewrite Hcatch. unfold purchase_failed, message.
      rewrite (http_405_message resp H405). reflexivity.
Qed.

Lemma get_of_value (key : string) (v : Js.json) :
  v <> Js.JNull -> Js.get key v <> Js.ReadThrows.
Proof.
  intros Hnull. destruct v; simpl; try discriminate; [now elim Hnull |].
  destruct (Js.last_binding key fields); discriminate.
Qed.

(** Once the timers ahead of it have fired, a timer takes the browser to
    its target. *)
Lemma timer_fires_in_turn (ahead : list Timer) (t : Timer) (w : State) :
  timers w = (ahead ++ [t])%list ->
  href (run user (repeat TimerFires (S (length ahead))) w)
  = Some (target t).
Proof.
  revert w. induction ahead as [| t' ahead IH]; intros w Hw.
  - simpl. rewrite Hw. reflexivity.
  - change (repeat TimerFires (S (length (t' :: ahead))))
      with (TimerFires :: repeat TimerFires (S (length ahead))).
    change (run user (TimerFires :: ?evs) w)
      with (run user evs (step user w TimerFires)).
    assert (Hstep : step user w TimerFires = fire t' (ahead ++ [t]) w)
      by (simpl step; rewrite Hw; reflexivity).
    rewrite Hstep. apply IH. reflexivity.
Qed.

(** X18: an answer in 200-299 whose body parses to a value other than
    [null] clears the selection, puts the quantity back to 1 and the
    markup to 20, starts a reload of the catalogue and schedules, 1000 ms
    ahead, the move to the dashboard, which takes place when that timer
    fires.  The confirmation it shows is the [message] of the body when
    the body is an object that has a truthy one, and the default text
    when it has none or a falsy one. *)
Theorem purchase_success_resets
    (w : State) (resp : Response) (result : Js.json) :
  ok resp = true ->
  parsed resp = Js.ParseOk result ->
  result <> Js.JNull ->
  let w' := purchase_settled (FetchResolves resp) w in
  (selected (hooks w') = None
   /\ qty (hooks w') = 1%float
   /\ markup (hooks w') = 20%float
   /\ loading (hooks w') = true
   /\ requests w' = (requests w ++ [GetAllProducts true])%list
   /\ pendingLoads w' = S (pendingLoads w)
   /\ timers w'
      = (timers w
         ++ [{| delay := 1000; target := "/retailer/dashboard" |}])%list
   /\ href (run user (repeat TimerFires (S (length (timers w)))) w')
      = Some "/retailer/dashboard")
  /\ (forall m : Js.json,
        Js.binds "message" m result ->
        Js.truthy m = true ->
        toasts w' = (toasts w ++ [ToastSuccess m])%list)
  /\ (Js.lacks "message" result
      \/ (exists m : Js.json,
             Js.binds "message" m result /\ Js.truthy m = false) ->
      toasts w'
      = (toasts w ++ [ToastSuccess (Js.JStr "Purchase successful!")])%list).
Proof.
  intros Hok Hparsed Hnull w'.
  assert (Hdone : w' = purchase_succeeded
                         match Js.get "message" result with
                         | Js.Value m =>
                             if Js.truthy m then m
                             else Js.JStr "Purchase successful!"
                         | _ => Js.JStr "Purchase successful!"
                         end w).
  { unfold w', purchase_settled. rewrite Hok, Hparsed.
    simpl negb. cbv iota.
    destruct (Js.get "message" result) as [m | |] eqn:Hget;
      try reflexivity.
    now elim (get_of_value "message" result Hnull). }
  assert (Htimers : timers w'
                    = (timers w
                       ++ [{| delay := 1000;
                              target := "/retailer/dashboard" |}])%list)
    by (rewrite Hdone; reflexivity).
  split; [| split].
  - rewrite (timer_fires_in_turn (timers w) _ w' Htimers).
    rewrite Hdone. repeat split.
  - intros m Hbinds Htruthy. rewrite Hdone, (get_binds _ _ _ Hbinds), Htruthy.
    reflexivity.
  - intros [Hlacks | (m & Hbinds & Hfalsy)]; rewrite Hdone.
    + rewrite (get_lacks _ _ Hlacks). reflexivity.
    + rewrite (get_binds _ _ _ Hbinds), Hfalsy. reflexivity.
Qed.

(** Nothing but the settling of a [load] takes the loading indicator
    down. *)
Lemma loading_kept (w : State) (e : Event) :
  (forall o : LoadOutcome, e <> LoadSettles o) ->
  loading (hooks w) = true ->
  loading (hooks (step user w e)) = true.
Proof.
  intros Hother Hloading.
  destruct e as [i | i | | v | v | | | o | o | b |]; simpl step;
    unfold on_modal, on_page; rewrite ?Hloading; try reflexivity.
  - now elim (Hother o).
  - destruct (pendingPurchases w); [exact Hloading |].
    destruct (purchase_settled_hooks o (settled Purchase w)) as [-> | ->];
      [exact Hloading | reflexivity].
  - destruct (pendingTests w); [exact Hloading |].
    rewrite test_settled_hooks. exact Hloading.
  - destruct (timers w); exact Hloading.
Qed.

(** C7, as amended: a [load] that fails shows the error toast and leaves
    the list of products as it was, which is empty for the [load] of the
    mount; every [load] puts the loading indicator up when it starts, no
    other event takes it down while it is up, and the settling of a
    [load], failed or not, takes it down and the page is rendered. *)
Theorem load_failure_and_indicator (w : State) (o : LoadOutcome) :
  load_fails o ->
  (toasts (load_settled user o w)
   = (toasts w ++ [ToastError "Failed to load wholesaler products"])%list
   /\ whProducts (hooks (load_settled user o w)) = whProducts (hooks w)
   /\ whProducts (hooks (step user mounted (LoadSettles o))) = [])
  /\ (loading (hooks (load w)) = true /\ render (load w) = LoadingProducts)
  /\ (forall e : Event,
        (forall o' : LoadOutcome, e <> LoadSettles o') ->
        loading (hooks w) = true ->
        render (step user w e) = LoadingProducts)
  /\ (forall o' : LoadOutcome,
        loading (hooks (load_settled user o' w)) = false
        /\ render (load_settled user o' w) <> LoadingProducts).
Proof.
  intros Hfails.
  assert (Hcatch : load_settled user o w
                   = setLoading false
                       (toast (ToastError "Failed to load wholesaler products")
                          w)).
  { destruct o as [| res]; [reflexivity |].
    simpl in Hfails. unfold load_settled. rewrite Hfails. reflexivity. }
  split; [| split; [| split]].
  - rewrite Hcatch. split; [reflexivity |]. split; [reflexivity |].
    destruct o as [| res]; [reflexivity |].
    simpl in Hfails. simpl. unfold load_settled. rewrite Hfails.
    reflexivity.
  - split; reflexivity.
  - intros e Hother Hloading. unfold render.
    rewrite (loading_kept w e Hother Hloading). reflexivity.
  - intros o'.
    assert (Hdown : loading (hooks (load_settled user o' w)) = false)
      by reflexivity.
    split; [exact Hdown |].
    unfold render. rewrite Hdown. discriminate.
Qed.

End PageFacts.

(** ** The properties at work on the sample session *)

Section Instances.

Import Page Sample.

(** Eleven units of [rice], of which there are ten: the button is
    disabled and the click is lost. *)
Lemma confirm_blocked_over_stock_witness :
  selected (hooks eleven_asked) = Some rice
  /\ (Product.stock rice <? qty (hooks eleven_asked))%float = true
  /\ step retailer eleven_asked ClickConfirm = eleven_asked.
Proof.
  split; [reflexivity |]. split; [reflexivity |].
  apply (confirm_blocked_over_stock retailer eleven_asked rice);
    reflexivity.
Defined.

(** Of the two products fetched, only the one of another seller is on
    screen. *)
Lemma own_listings_excluded_witness :
  In rice (cards_shown modal_open)
  /\ Product.seller_id rice <> User.id retailer.
Proof.
  assert (H : In rice (cards_shown modal_open)) by (left; reflexivity).
  split; [exact H |].
  exact (proj2 (own_listings_excluded retailer) browsing rice H).
Defined.

(** [rice] costs 100 and the markup is the initial 20: the product is the
    float 120, whose mantissa and exponent are given. *)
Lemma retail_price_rounded_witness :
  loading (hooks modal_open) = false
  /\ selected (hooks modal_open) = Some rice
  /\ Js.value (Product.price rice * (1 + markup (hooks modal_open) / 100))%float
     = Some (Js.magnitude 8444249301319680 (-46))
  /\ retail_price 100%float 20%float = Js.Text "120.00".
Proof.
  split; [reflexivity |]. split; [reflexivity |]. split; [reflexivity |].
  apply (retail_price_rounded modal_open rice
           (Js.magnitude 8444249301319680 (-46)));
    reflexivity.
Defined.

(** Against C3 as stated.  At a price of 12.5 and a markup of 15, two
    numbers that binary64 holds exactly, the product is 14.375 and rounds
    to 14.38, but the page, whose product is the float just below, shows
    14.37.  At a price of 100 and a markup of 10^21 the product is 10^21,
    which [toFixed] leaves to [Number::toString]: the page shows it with
    an exponent and no decimals. *)
Lemma preview_is_not_the_exact_product :
  (option_map Qred (Js.value 12.5%float) = Some (25 # 2)
   /\ option_map Qred (Js.value 15%float) = Some (15 # 1)
   /\ Qred ((25 # 2) * (1 + (15 # 1) / (100 # 1))) = 115 # 8
   /\ Js.nearest_scaled 2 (115 # 8) = 1438%Z
   /\ retail_price 12.5%float 15%float = Js.Text "14.37")
  /\ (retail_price 100%float 1e21%float = Js.ViaToString 1e21%float
      /\ Js.number_to_string 1e21%float = "1e+21").
Proof. repeat split; vm_compute; reflexivity. Qed.

(** C4: with [rice] selected (stock 10), a quantity of 0 and a markup of
    500 leave the Confirm Purchase button enabled, and the click sends
    them as they are: a quantity below 1 and a markup above 100. *)
Lemma zero_units_purchase_sent :
  modal_shown zero_asked
  = Some {| product := rice; quantity_input := 0%float;
            markup_input := 500%float;
            retail_price_shown := Js.Text "600.00";
            confirm_disabled := false;
            confirm_label := "Confirm Purchase";
            stock_warning := false |}
  /\ requests (step retailer zero_asked ClickConfirm)
     = [ GetAllProducts true;
         PostPurchase {| wholesaler_id := "w-3"; product_id := "p-1";
                         retailer_id := "r-7"; quantity := 0%float;
                         markup_percent := 500%float |} ]
  /\ (1 <=? 0)%float = false
  /\ (500 <=? 100)%float = false.
Proof. repeat split; vm_compute; reflexivity. Qed.

(** The accepted purchase of [rice] shows the message of the answer and
    resets the form. *)
Lemma purchase_success_resets_witness :
  ok accepted = true
  /\ toasts refreshing = [ToastSuccess (Js.JStr "Purchase recorded")]
  /\ selected (hooks refreshing) = None
  /\ qty (hooks refreshing) = 1%float
  /\ markup (hooks refreshing) = 20%float.
Proof.
  split; [reflexivity |].
  destruct (purchase_success_resets retailer
              (settled Purchase awaiting_answer) accepted
              (Js.JObj [("message", Js.JStr "Purchase recorded")])
              eq_refl eq_refl ltac:(discriminate))
    as (Hreset & Hmessage & _).
  split.
  - apply (Hmessage (Js.JStr "Purchase recorded"));
      [exists [], []; split; [reflexivity | intros later []]
      | reflexivity].
  - repeat split; apply Hreset.
Defined.

(** C5: on an answer in 200-299 the page is to reset the form, reload,
    confirm and leave for the dashboard; it does not when the body is not
    a JSON value other than [null].  After a 204 answer, which has nothing
    to parse, and after a 200 answer whose body is [null], the selection
    stays, the toast is an error (the parser's complaint, the complaint
    about reading [message] of [null]), no reload starts and no move to
    the dashboard is scheduled. *)
Lemma success_without_body_resets_nothing :
  (ok no_content = true
   /\ pendingPurchases awaiting_answer = 1%nat
   /\ selected (hooks (step retailer awaiting_answer
                         (PurchaseSettles (FetchResolves no_content))))
      = Some rice
   /\ toasts (step retailer awaiting_answer
                (PurchaseSettles (FetchResolves no_content)))
      = [ToastError "Unexpected end of JSON input"]
   /\ requests (step retailer awaiting_answer
                  (PurchaseSettles (FetchResolves no_content)))
      = requests awaiting_answer
   /\ timers (step retailer awaiting_answer
                (PurchaseSettles (FetchResolves no_content)))
      = [])
  /\ (ok null_body = true
      /\ selected (hooks (step retailer awaiting_answer
                            (PurchaseSettles (FetchResolves null_body))))
         = Some rice
      /\ toasts (step retailer awaiting_answer
                   (PurchaseSettles (FetchResolves null_body)))
         = [ToastError "Cannot read properties of null (reading 'message')"]
      /\ requests (step retailer awaiting_answer
                     (PurchaseSettles (FetchResolves null_body)))
         = requests awaiting_answer
      /\ timers (step retailer awaiting_answer
                   (PurchaseSettles (FetchResolves null_body)))
         = []).
Proof. repeat split. Qed.

(** A purchase refused for want of stock shows the [detail] of the
    answer behind its status. *)
Lemma purchase_http_failure_witness :
  ok out_of_stock = false
  /\ http_error_message out_of_stock = "HTTP 400: Insufficient stock"
  /\ toasts (purchase_settled (FetchResolves out_of_stock) awaiting_answer)
     = [ToastError "HTTP 400: Insufficient stock"].
Proof.
  split; [reflexivity |].
  destruct (purchase_http_failure awaiting_answer out_of_stock eq_refl)
    as (_ & Hdetail & _ & _ & Hshown & _).
  assert (Hmessage : http_error_message out_of_stock
                     = "HTTP 400: Insufficient stock").
  { apply (Hdetail (Js.JObj [("detail", Js.JStr "Insufficient stock")])
             "Insufficient stock" eq_refl);
      [exists [], []; split; [reflexivity | intros later []]
      | discriminate]. }
  split; [exact Hmessage |].
  rewrite (Hshown eq_refl eq_refl eq_refl), Hmessage. reflexivity.
Defined.

(** The [load] of the mount is rejected. *)
Lemma load_failure_and_indicator_witness :
  load_fails LoadRejects
  /\ toasts (load_settled retailer LoadRejects mounted)
     = [ToastError "Failed to load wholesaler products"].
Proof.
  split; [exact I |].
  apply (load_failure_and_indicator retailer mounted LoadRejects I).
Defined.

(** Against C7 as stated: the refresh that follows a purchase is
    rejected while the list holds [rice], and the list still holds it
    afterwards. *)
Lemma failed_refresh_keeps_products :
  pendingLoads refreshing = 1%nat
  /\ load_fails LoadRejects
  /\ whProducts (hooks (step retailer refreshing (LoadSettles LoadRejects)))
     = [rice]
  /\ cards_shown (step retailer refreshing (LoadSettles LoadRejects))
     = [rice]
  /\ whProducts (hooks (step retailer refreshing (LoadSettles LoadRejects)))
     <> [].
Proof. repeat split. discriminate. Qed.

(** Nothing is selected when the component has just been mounted. *)
Lemma confirm_without_selection_witness :
  selected (hooks mounted) = None
  /\ toasts (confirmPurchase retailer mounted)
     = [ToastError "Select a product"]
  /\ requests (confirmPurchase retailer mounted) = requests mounted.
Proof.
  split; [reflexivity |].
  pose proof (confirm_without_selection retailer mounted eq_refl) as H.
  split; apply H.
Defined.

(** The payload of a purchase of [rice] by the sample retailer. *)
Lemma payload_identifiers_witness :
  selected (hooks modal_open) = Some rice
  /\ exists body : Payload,
       requests (confirmPurchase retailer modal_open)
       = (requests modal_open ++ [PostPurchase body])%list
       /\ wholesaler_id body = "w-3"
       /\ product_id body = "p-1"
       /\ retailer_id body = "r-7"
       /\ quantity body = 1%float
       /\ markup_percent body = 20%float.
Proof.
  split; [reflexivity |].
  exact (payload_identifiers retailer modal_open rice eq_refl).
Defined.

(** Selecting [rice] again keeps the eleven units typed before. *)
Lemma select_keeps_quantity_and_markup_witness :
  loading (hooks eleven_asked) = false
  /\ nth_error (whProducts (hooks eleven_asked)) 0 = Some rice
  /\ qty (hooks (step retailer eleven_asked (ClickSelect 0))) = 11%float.
Proof.
  split; [reflexivity |]. split; [reflexivity |].
  apply (select_keeps_quantity_and_markup retailer eleven_asked 0 rice
           eq_refl eq_refl).
Defined.

End Instances.

(** ** More of the page's behaviour *)

Section Behaviour.

Import Page.

Variable user : User.t.

(** The [catch] of [confirmPurchase] shows one toast, which has a text. *)
Lemma purchase_failed_toast (message : string) (w : State) :
  exists shown : string,
    shown <> "" /\ purchase_failed message w = toast (ToastError shown) w.
Proof.
  unfold purchase_failed.
  destruct (Js.includes "405" message);
    [exists method_not_allowed; split; [discriminate | reflexivity] |].
  destruct (Js.includes "CORS" message);
    [exists cors_blocked; split; [discriminate | reflexivity] |].
  destruct (Js.includes "Network Error" message);
    [exists network_error; split; [discriminate | reflexivity] |].
  destruct (message =? "") eqn:E.
  - eexists. split; [| reflexivity]. discriminate.
  - exists message. split; [| reflexivity]. now apply String.eqb_neq.
Qed.

(** A purchase that settles ends in the [catch] or runs to the end of the
    [try]. *)
Lemma purchase_settled_cases (o : FetchOutcome) (w : State) :
  (exists shown : string,
      shown <> "" /\ purchase_settled o w = toast (ToastError shown) w)
  \/ (exists content : Js.json,
        Js.truthy content = true
        /\ purchase_settled o w = purchase_succeeded content w).
Proof.
  unfold purchase_settled.
  destruct o as [message | resp]; [left; apply purchase_failed_toast |].
  destruct (negb (ok resp)); [left; apply purchase_failed_toast |].
  destruct (parsed resp) as [result | message];
    [| left; apply purchase_failed_toast].
  destruct (Js.get "message" result) as [m | |];
    [| | left; apply purchase_failed_toast]; right.
  - destruct (Js.truthy m) eqn:E;
      [exists m | exists (Js.JStr "Purchase successful!")];
      split; try reflexivity; exact E.
  - exists (Js.JStr "Purchase successful!"). split; reflexivity.
Qed.

(** [step] does what [Transition] says. *)
Lemma step_transition (w : State) (e : Event) :
  Transition user w (step user w e).
Proof.
  destruct e as [i | i | | v | v | | | o | o | b |]; simpl step;
    unfold on_modal, on_page;
    try (destruct (loading (hooks w)) eqn:Hloading; [apply Ignored |]).
  - destruct (nth_error _ i) as [p |] eqn:Hi; [| apply Ignored].
    apply Selected; [exact Hloading | exact (nth_error_In _ _ Hi)].
  - destruct (nth_error _ i) as [p |]; [| apply Ignored].
    apply InfoShown, Hloading.
  - apply TestStarted, Hloading.
  - destruct (selected (hooks w)); [| apply Ignored].
    apply QuantityTyped, Hloading.
  - destruct (selected (hooks w)); [| apply Ignored].
    apply MarkupTyped, Hloading.
  - destruct (selected (hooks w)); [| apply Ignored].
    apply Cancelled, Hloading.
  - destruct (selected (hooks w)) as [p |] eqn:Hsel; [| apply Ignored].
    destruct (over_stock p w) eqn:Hover; [apply Ignored |].
    unfold confirmPurchase. rewrite Hsel.
    apply PurchaseSent; assumption.
  - destruct (pendingLoads w) eqn:Hn; [apply Ignored |].
    apply LoadSettled. lia.
  - destruct (pendingPurchases w) eqn:Hn; [apply Ignored |].
    destruct (purchase_settled_cases o (settled Purchase w))
      as [(shown & Hshown & ->) | (content & Hcontent & ->)].
    + apply PurchaseFailed; [lia | exact Hshown].
    + apply PurchaseSucceeded; [lia | exact Hcontent].
  - destruct (pendingTests w) eqn:Hn; [apply Ignored |].
    apply TestSettled. lia.
  - destruct (timers w) as [| t rest] eqn:Ht; [apply Ignored |].
    apply TimerFired, Ht.
Qed.

Lemma in_sent {r x : Request} {l : list Request} :
  In x (l ++ [r]) -> In x l \/ x = r.
Proof.
  intros H. apply in_app_or in H. destruct H as [H | [H | []]]; auto.
Qed.

(** Every effect an event can have keeps the invariant. *)
Lemma invariant_transition (w w' : State) :
  invariant user w -> Transition user w w' -> invariant user w'.
Proof.
  intros [Hl Hp Hs Hr Hf Ht Hh Hn] T.
  destruct T as [| p Hld Hin | p Hld | Hld | v Hld | v Hld | Hld
                 | p Hld Hsel Hover | o Hn1 | m Hn1 Hm | c Hn1 Hc
                 | b Hn1 | t rest Hts].
  - now constructor.
  - constructor; simpl; try assumption; try (intros; congruence).
    intros q [= <-]. exact (Hp p Hin).
  - constructor; simpl; assumption.
  - constructor; simpl; try assumption; try (intros; congruence).
    + intros body Hb. destruct (in_sent Hb) as [Hb' | Hb']; [auto | discriminate].
    + intros H. destruct (Hf H) as [body Hb]. exists body.
      apply in_or_app. now left.
    + intros H. destruct (Hn H) as [body Hb]. exists body.
      apply in_or_app. now left.
  - constructor; simpl; try assumption; intros; congruence.
  - constructor; simpl; try assumption; intros; congruence.
  - constructor; simpl; try assumption; intros; congruence.
  - constructor; simpl; try assumption; try (intros; congruence).
    + intros body Hb. destruct (in_sent Hb) as [Hb' | [= ->]]; [auto |].
      simpl. split; [reflexivity | exact (Hs p Hsel)].
    + intros _. eexists. apply in_or_app. right. now left.
    + intros _. eexists. apply in_or_app. right. now left.
  - assert (Hhooks : loading (hooks (load_settled user o (settled Products w)))
                     = false) by reflexivity.
    assert (Hlist : forall q,
               In q (whProducts (hooks (load_settled user o
                                          (settled Products w)))) ->
               Product.seller_id q <> User.id user).
    { unfold load_settled. destruct o as [| res]; [exact Hp |].
      destruct (all_of res) as [all |]; [| exact Hp].
      simpl. intros q Hq. apply filter_In in Hq.
      apply not_own_spec, Hq. }
    assert (Hrest : selected (hooks (load_settled user o (settled Products w)))
                    = selected (hooks w)
                    /\ requests (load_settled user o (settled Products w))
                       = requests w
                    /\ pendingPurchases
                         (load_settled user o (settled Products w))
                       = pendingPurchases w
                    /\ timers (load_settled user o (settled Products w))
                       = timers w
                    /\ href (load_settled user o (settled Products w))
                       = href w).
    { unfold load_settled. destruct o as [| res]; [repeat split |].
      destruct (all_of res); repeat split. }
    destruct Hrest as (E1 & E2 & E3 & E4 & E5).
    constructor; rewrite ?Hhooks, ?E1, ?E2, ?E3, ?E4, ?E5;
      try assumption. discriminate.
  - constructor; simpl; try assumption.
    intros H. apply Hf. lia.
  - constructor; simpl; try assumption; try (intros; congruence).
    + intros _. split; [lia | reflexivity].
    + intros body Hb. destruct (in_sent Hb) as [Hb' | Hb']; [auto | discriminate].
    + intros H. destruct (Hf Hn1) as [body Hb]. exists body.
      apply in_or_app. now left.
    + intros t Hin. apply in_app_or in Hin.
      destruct Hin as [Hin | [<- | []]]; [auto | reflexivity].
    + intros _. destruct (Hf Hn1) as [body Hb]. exists body.
      apply in_or_app. now left.
  - destruct b; constructor; simpl; assumption.
  - constructor; simpl; try assumption.
    + intros q Hq. apply Ht. rewrite Hts. now right.
    + right. rewrite (Ht t) by (rewrite Hts; now left). reflexivity.
    + intros _. apply Hn. left. rewrite Hts. discriminate.
Qed.

Lemma invariant_mounted : invariant user mounted.
Proof.
  constructor; simpl; try (intros; contradiction); try (intros; discriminate).
  - intros _. split; [lia | reflexivity].
  - intros body [H | []]. discriminate.
  - lia.
  - now left.
  - intros [H | H]; now elim H.
Qed.

(** The invariant holds after any events. *)
Lemma invariant_run (evs : list Event) (w : State) :
  invariant user w -> invariant user (run user evs w).
Proof.
  revert w. induction evs as [| e evs IH]; intros w Hw; [exact Hw |].
  apply IH. exact (invariant_transition _ _ Hw (step_transition w e)).
Qed.

(** *** Loading the catalogue *)

(** X1: when the catalogue arrives, every product of another seller is on
    screen, and the whole catalogue is when none of it is the user's. *)
Theorem other_sellers_kept
    (w : State) (res : ApiResult) (all : list Product.t) :
  all_of res = Some all ->
  (forall p : Product.t,
      In p all -> Product.seller_id p <> User.id user ->
      In p (cards_shown (load_settled user (LoadResolves res) w)))
  /\ ((forall p : Product.t,
         In p all -> Product.seller_id p <> User.id user) ->
      cards_shown (load_settled user (LoadResolves res) w) = all).
Proof.
  intros Hall.
  assert (Hcards : cards_shown (load_settled user (LoadResolves res) w)
                   = filter (not_own user) all).
  { unfold cards_shown, render, load_settled. rewrite Hall. reflexivity. }
  rewrite Hcards. split.
  - intros p Hin Hother. apply filter_In. split; [exact Hin |].
    apply not_own_spec, Hother.
  - intros Hnone. apply forallb_filter_id, forallb_forall.
    intros p Hin. apply not_own_spec, Hnone, Hin.
Qed.

(** X2: when the load of the mount fails, or brings nothing but the
    user's own listings, the page is rendered with no card, the "no
    products" notice and no modal. *)
Theorem empty_catalogue_notice (o : LoadOutcome) :
  load_fails o
  \/ (exists (res : ApiResult) (all : list Product.t),
         o = LoadResolves res /\ all_of res = Some all
         /\ forall p : Product.t,
              In p all -> Product.seller_id p = User.id user) ->
  render (step user mounted (LoadSettles o)) = Rendered [] true None.
Proof.
  intros [Hfails | (res & all & -> & Hall & Hown)].
  - destruct o as [| res]; [reflexivity |].
    simpl in Hfails. simpl. unfold load_settled. rewrite Hfails.
    reflexivity.
  - simpl. unfold load_settled. rewrite Hall.
    assert (E : filter (not_own user) all = []).
    { clear Hall. induction all as [| p all IH]; [reflexivity |]. simpl.
      assert (Hp : not_own user p = false).
      { unfold not_own. rewrite (Hown p (or_introl eq_refl)).
        now rewrite String.eqb_refl. }
      rewrite Hp. apply IH.
      intros q Hq. apply Hown. now right. }
    unfold render. simpl. rewrite E. reflexivity.
Qed.

(** X3: whenever the loading indicator is on screen, a request for the
    products is in flight, so that its settling will clear it. *)
Theorem loading_means_in_flight (evs : list Event) :
  loading (hooks (run user evs mounted)) = true ->
  render (run user evs mounted) = LoadingProducts
  /\ (1 <= pendingLoads (run user evs mounted))%nat.
Proof.
  intros Hloading. split.
  - unfold render. rewrite Hloading. reflexivity.
  - apply (inv_loading _ _ (invariant_run evs _ invariant_mounted)), Hloading.
Qed.

(** X4: a selected product always has its modal on screen (the selection
    is cleared before the loading indicator comes back), and it is never a
    listing of the user's own. *)
Theorem selection_is_on_screen (evs : list Event) (p : Product.t) :
  selected (hooks (run user evs mounted)) = Some p ->
  modal_shown (run user evs mounted)
  = Some (modal_of p (run user evs mounted))
  /\ Product.seller_id p <> User.id user.
Proof.
  intros Hsel.
  pose proof (invariant_run evs _ invariant_mounted) as Hinv.
  split; [| exact (inv_selected _ _ Hinv p Hsel)].
  unfold modal_shown, render.
  destruct (loading (hooks (run user evs mounted))) eqn:Hloading.
  - destruct (inv_loading _ _ Hinv Hloading) as [_ Hnone]. congruence.
  - rewrite Hsel. reflexivity.
Qed.

(** *** Purchases *)

(** X5: every purchase the page ever sends names the session user as the
    retailer and somebody else as the wholesaler. *)
Theorem never_buys_from_self (evs : list Event) (body : Payload) :
  In (PostPurchase body) (requests (run user evs mounted)) ->
  retailer_id body = User.id user
  /\ wholesaler_id body <> retailer_id body.
Proof.
  intros Hin.
  destruct (inv_purchases _ _ (invariant_run evs _ invariant_mounted)
              body Hin) as [Hr Hw].
  split; [exact Hr | now rewrite Hr].
Qed.

(** X6: the page assigns no location but the dashboard, every pending
    timer leads there after 1000 ms, and neither exists before a purchase
    has been sent. *)
Theorem leaves_only_for_dashboard (evs : list Event) :
  (href (run user evs mounted) = None
   \/ href (run user evs mounted) = Some "/retailer/dashboard")
  /\ (forall t : Timer,
        In t (timers (run user evs mounted)) ->
        delay t = 1000%nat /\ target t = "/retailer/dashboard")
  /\ (timers (run user evs mounted) <> []
      \/ href (run user evs mounted) <> None ->
      exists body : Payload,
        In (PostPurchase body) (requests (run user evs mounted))).
Proof.
  pose proof (invariant_run evs _ invariant_mounted) as Hinv.
  split; [exact (inv_href _ _ Hinv) |].
  split; [| exact (inv_left _ _ Hinv)].
  intros t Hin. rewrite (inv_timers _ _ Hinv t Hin). split; reflexivity.
Qed.

(** X7: a purchase that settles does one of two things.  Either it shows
    one error toast with a text and leaves the form, the request log, the
    timers and the location as they were, so that the purchase can be
    tried again; or it shows one confirmation, never an empty one, clears
    the selection and sets the timer for the dashboard. *)
Theorem purchase_settles_one_of_two (o : FetchOutcome) (w : State) :
  (exists shown : string,
      shown <> ""
      /\ toasts (purchase_settled o w)
         = (toasts w ++ [ToastError shown])%list
      /\ hooks (purchase_settled o w) = hooks w
      /\ requests (purchase_settled o w) = requests w
      /\ timers (purchase_settled o w) = timers w
      /\ href (purchase_settled o w) = href w)
  \/ (exists content : Js.json,
        Js.truthy content = true
        /\ toasts (purchase_settled o w)
           = (toasts w ++ [ToastSuccess content])%list
        /\ selected (hooks (purchase_settled o w)) = None
        /\ timers (purchase_settled o w) = (timers w ++ [dashboard])%list).
Proof.
  destruct (purchase_settled_cases o w)
    as [(shown & Hshown & ->) | (content & Hcontent & ->)].
  - left. exists shown. repeat split. exact Hshown.
  - right. exists content. repeat split. exact Hcontent.
Qed.

(** The [Error] thrown on an answer outside 200-299 starts with the
    status. *)
Lemma http_error_message_heading (resp : Response) :
  exists tail : string,
    http_error_message resp
    = "HTTP " ++ Js.string_of_Z (status resp) ++ ": " ++ tail.
Proof.
  unfold http_error_message.
  destruct (parsed resp) as [errorData | ?];
    [destruct (Js.get "detail" errorData) as [detail | |];
     [destruct (Js.truthy detail);
      [destruct (Js.to_string detail) |] |..] |];
    eexists; rewrite !append_assoc; reflexivity.
Qed.

(** What a string includes, it still includes with something in front. *)
Lemma includes_behind (n pre s : string) :
  Js.includes n s = true -> Js.includes n (pre ++ s) = true.
Proof.
  intros H. induction pre as [| c pre IH]; [exact H |].
  simpl append. apply includes_later, IH.
Qed.

(** X8: an answer outside 200-299 shows one of the three pieces of
    guidance or the [HTTP <status>: ...] message itself; the fallback
    text [Purchase failed] is never what it shows. *)
Theorem http_failure_toast (w : State) (resp : Response) :
  ok resp = false ->
  exists shown : string,
    toasts (purchase_settled (FetchResolves resp) w)
    = (toasts w ++ [ToastError shown])%list
    /\ (shown = method_not_allowed \/ shown = cors_blocked
        \/ shown = network_error \/ shown = http_error_message resp)
    /\ shown <> "Purchase failed ⚠".
Proof.
  intros Hok. unfold purchase_settled. rewrite Hok. simpl negb. cbv iota.
  destruct (http_error_message_heading resp) as [tail Htail].
  unfold purchase_failed.
  destruct (Js.includes "405" (http_error_message resp));
    [exists method_not_allowed; repeat split; [auto | discriminate] |].
  destruct (Js.includes "CORS" (http_error_message resp));
    [exists cors_blocked; repeat split; [auto | discriminate] |].
  destruct (Js.includes "Network Error" (http_error_message resp));
    [exists network_error; repeat split; [auto | discriminate] |].
  exists (http_error_message resp). rewrite Htail. simpl.
  repeat split; [auto | discriminate].
Qed.

(** X9: the method-not-allowed guidance does not need a 405: an answer
    outside 200-299, of any status, whose body is not JSON and has 405
    somewhere in its text gets it too. *)
Theorem body_mentioning_405
    (w : State) (resp : Response) (complaint : string) :
  ok resp = false ->
  parsed resp = Js.ParseThrows complaint ->
  Js.includes "405" (text resp) = true ->
  toasts (purchase_settled (FetchResolves resp) w)
  = (toasts w ++ [ToastError method_not_allowed])%list.
Proof.
  intros Hok Hparsed Hbody.
  unfold purchase_settled. rewrite Hok. simpl negb. cbv iota.
  assert (H405 : Js.includes "405" (http_error_message resp) = true).
  { unfold http_error_message. rewrite Hparsed.
    apply includes_behind, Hbody. }
  unfold purchase_failed. rewrite H405. reflexivity.
Qed.

(** ToString of an array of objects that have no key [toString]. *)
Lemma to_string_objects (items : list Js.json) :
  Forall (fun x => exists fields,
              x = Js.JObj fields
              /\ forall v : Js.json, ~ In ("toString", v) fields) items ->
  Js.to_string (Js.JArr items)
  = Some (Js.join "," (repeat "[object Object]" (length items))).
Proof.
  intros Hobjects. simpl.
  assert (E : Js.all_printed
                (map (fun x => match x with
                               | Js.JNull => Some ""
                               | _ => Js.to_string x
                               end) items)
              = Some (repeat "[object Object]" (length items))).
  { induction Hobjects as [| x items (fields & -> & Hplain) _ IH];
      [reflexivity |].
    simpl. rewrite (last_binding_none _ _ Hplain), IH. reflexivity. }
  rewrite E. reflexivity.
Qed.

(** ToString of an array throws as soon as one of its objects has a key
    [toString]. *)
Lemma to_string_hidden
    (items : list Js.json) (fields : list (string * Js.json)) (v : Js.json) :
  In (Js.JObj fields) items ->
  In ("toString", v) fields ->
  Js.to_string (Js.JArr items) = None.
Proof.
  intros Hin Hkey. simpl.
  assert (E : Js.all_printed
                (map (fun x => match x with
                               | Js.JNull => Some ""
                               | _ => Js.to_string x
                               end) items) = None).
  { induction items as [| x items IH]; [contradiction |].
    destruct Hin as [-> | Hin].
    - simpl. pose proof (last_binding_some _ _ _ Hkey) as Hsome.
      destruct (Js.last_binding "toString" fields); [reflexivity |].
      now elim Hsome.
    - simpl map. simpl Js.all_printed. rewrite (IH Hin).
      destruct (match x with Js.JNull => Some "" | _ => Js.to_string x end);
        reflexivity. }
  rewrite E. reflexivity.
Qed.

(** X10: when the [detail] of a refused purchase is a list of objects (the
    shape of a validation report) none of which has a key [toString], the
    message thrown spells each of them [[object Object]] and nothing of
    their content; when one of them has such a key, the conversion throws
    and the message carries the raw text of the body. *)
Theorem validation_report_unreadable
    (resp : Response) (errorData : Js.json) (items : list Js.json) :
  parsed resp = Js.ParseOk errorData ->
  Js.binds "detail" (Js.JArr items) errorData ->
  (Forall (fun x => exists fields,
               x = Js.JObj fields
               /\ forall v : Js.json, ~ In ("toString", v) fields) items ->
   http_error_message resp
   = "HTTP " ++ Js.string_of_Z (status resp) ++ ": "
     ++ Js.join "," (repeat "[object Object]" (length items)))
  /\ (forall (fields : list (string * Js.json)) (v : Js.json),
        In (Js.JObj fields) items ->
        In ("toString", v) fields ->
        http_error_message resp
        = "HTTP " ++ Js.string_of_Z (status resp) ++ ": " ++ text resp).
Proof.
  intros Hparsed Hbinds. unfold http_error_message.
  rewrite Hparsed, (get_binds _ _ _ Hbinds). cbv [Js.truthy]. cbv iota.
  split.
  - intros Hobjects.
    rewrite (to_string_objects items Hobjects), !append_assoc. reflexivity.
  - intros fields v Hin Hkey.
    rewrite (to_string_hidden items fields v Hin Hkey), !append_assoc.
    reflexivity.
Qed.

Lemma run_two (a b : Event) (w : State) :
  run user [a; b] w = step user (step user w a) b.
Proof. reflexivity. Qed.

(** X11: the Confirm Purchase button stays enabled and the modal open
    while a purchase is in flight: a second click sends the same purchase
    a second time. *)
Theorem double_click_sends_twice (w : State) (p : Product.t) :
  loading (hooks w) = false ->
  selected (hooks w) = Some p ->
  (Product.stock p <? qty (hooks w))%float = false ->
  requests (run user [ClickConfirm; ClickConfirm] w)
  = (requests w ++ [PostPurchase (payload_of user p w);
                    PostPurchase (payload_of user p w)])%list
  /\ pendingPurchases (run user [ClickConfirm; ClickConfirm] w)
     = S (S (pendingPurchases w))
  /\ hooks (run user [ClickConfirm; ClickConfirm] w) = hooks w.
Proof.
  intros Hloaded Hsel Hstock.
  assert (Hclick : forall w0,
             hooks w0 = hooks w ->
             step user w0 ClickConfirm
             = send (PostPurchase (payload_of user p w0)) w0).
  { intros w0 E. unfold step, on_modal, on_page, over_stock, confirmPurchase.
    rewrite E, Hloaded, Hsel, Hstock. reflexivity. }
  rewrite run_two, (Hclick w eq_refl), Hclick by reflexivity.
  simpl. rewrite <- app_assoc. repeat split.
Qed.

Lemma step_load_settles (w : State) (n : nat) (o : LoadOutcome) :
  pendingLoads w = S n ->
  step user w (LoadSettles o) = load_settled user o (settled Products w).
Proof. intros Hn. simpl. rewrite Hn. reflexivity. Qed.

(** X12: with two loads in flight, the one that settles first takes the
    loading indicator down although the other is still under way, and
    the list on screen in the end is that of the load that settled
    last. *)
Theorem overlapping_loads
    (w : State) (n : nat) (first : LoadOutcome)
    (res : ApiResult) (all : list Product.t) :
  pendingLoads w = S (S n) ->
  all_of res = Some all ->
  (render (step user w (LoadSettles first)) <> LoadingProducts
   /\ pendingLoads (step user w (LoadSettles first)) = S n)
  /\ cards_shown (run user [LoadSettles first; LoadSettles (LoadResolves res)]
                       w)
     = filter (fun p => negb (Product.seller_id p =? User.id user)) all.
Proof.
  intros Hn Hall.
  pose proof (step_load_settles w _ first Hn) as Hfirst.
  assert (Hpending : pendingLoads (load_settled user first
                                     (settled Products w)) = S n).
  { unfold load_settled.
    destruct first as [| res1]; [simpl; now rewrite Hn |].
    destruct (all_of res1); simpl; now rewrite Hn. }
  split.
  - rewrite Hfirst. split; [| exact Hpending].
    unfold render.
    assert (Hdown : loading (hooks (load_settled user first
                                      (settled Products w))) = false)
      by reflexivity.
    rewrite Hdown. discriminate.
  - rewrite run_two, Hfirst.
    rewrite (step_load_settles _ _ (LoadResolves res) Hpending).
    unfold load_settled at 1. rewrite Hall. reflexivity.
Qed.

(** *** The modal *)

(** X13: Cancel closes the modal and resets nothing: the product chosen
    next is offered with the quantity and the markup typed before. *)
Theorem cancel_keeps_form
    (w : State) (shown next : Product.t) (card : nat) :
  loading (hooks w) = false ->
  selected (hooks w) = Some shown ->
  nth_error (whProducts (hooks w)) card = Some next ->
  modal_shown (step user w ClickCancel) = None
  /\ modal_shown (run user [ClickCancel; ClickSelect card] w)
     = Some (modal_of next w).
Proof.
  intros Hloaded Hsel Hcard.
  assert (Hcancel : step user w ClickCancel = setSelected None w).
  { unfold step, on_modal, on_page. rewrite Hloaded, Hsel. reflexivity. }
  split.
  - rewrite Hcancel. unfold modal_shown, render. simpl.
    rewrite Hloaded. reflexivity.
  - rewrite run_two, Hcancel.
    unfold step, on_page. simpl. rewrite Hloaded, Hcard.
    unfold modal_shown, render. simpl. rewrite Hloaded. reflexivity.
Qed.

(** A number rounded at [f] decimals is within half a unit of the last
    decimal. *)
Lemma nearest_scaled_error (f : nat) (x : Q) :
  (Qabs (inject_Z (Js.nearest_scaled f x) / inject_Z (10 ^ Z.of_nat f) - x)
   <= (1 # 2) / inject_Z (10 ^ Z.of_nat f))%Q.
Proof.
  pose proof (scale_pos f) as Hs.
  destruct (nearest_scaled_bracket f x) as [Hlo Hhi].
  rewrite (Qabs_unscale _ _ _ Hs). unfold Qdiv.
  apply Qmult_le_compat_r.
  - apply Qabs_Qle_condition. split; lra.
  - apply Qlt_le_weak, Qinv_lt_0_compat, Hs.
Qed.

(** X14: the retail price on screen is within half a hundredth of the
    product the page computes, whenever that product is a number below
    10^21 in magnitude. *)
Theorem retail_price_within_half_cent (price markup : float) (v : Q) :
  Js.value (price * (1 + markup / 100))%float = Some v ->
  (Qabs v < inject_Z (10 ^ 21))%Q ->
  exists n : Z,
    retail_price price markup
    = Js.Text (Js.sign_text v ++ Js.string_of_Z (n / 100) ++ "."
               ++ Js.string_of_Z (n / 10 mod 10)
               ++ Js.string_of_Z (n mod 10))
    /\ (Qabs (inject_Z n / inject_Z 100 - Qabs v) <= 1 # 200)%Q.
Proof.
  intros Hv Hsmall.
  destruct (toFixed_two_decimals _ v Hv Hsmall) as (n & _ & Hround & Htext).
  exists n. split; [exact Htext |].
  destruct (Hround (Js.nearest_scaled 2 (Qabs v))) as [Hclosest _].
  eapply Qle_trans; [exact Hclosest |].
  eapply Qle_trans; [apply nearest_scaled_error |].
  apply Qle_lteq. right. reflexivity.
Qed.

(** *** The connection test *)

(** X15: the connection test, from the click to the answer, sends one
    request to the test endpoint and shows one toast, a success or an
    error by the answer; the form, the purchases in flight, the timers
    and the location are as they were. *)
Theorem test_connection_leaves_form (w : State) (succeeded : bool) :
  loading (hooks w) = false ->
  requests (run user [ClickTestConnection; TestSettles succeeded] w)
  = (requests w ++ [GetPurchaseTest])%list
  /\ toasts (run user [ClickTestConnection; TestSettles succeeded] w)
     = (toasts w
        ++ [if succeeded
            then ToastSuccess (Js.JStr "Endpoint test successful!")
            else ToastError "Endpoint test failed - check server"])%list
  /\ hooks (run user [ClickTestConnection; TestSettles succeeded] w)
     = hooks w
  /\ pendingTests (run user [ClickTestConnection; TestSettles succeeded] w)
     = pendingTests w
  /\ pendingPurchases
       (run user [ClickTestConnection; TestSettles succeeded] w)
     = pendingPurchases w
  /\ timers (run user [ClickTestConnection; TestSettles succeeded] w)
     = timers w
  /\ href (run user [ClickTestConnection; TestSettles succeeded] w)
     = href w.
Proof.
  intros Hloaded.
  assert (Hclick : step user w ClickTestConnection = testEndpoint w)
    by (unfold step, on_page; rewrite Hloaded; reflexivity).
  rewrite !run_two, Hclick. simpl step.
  destruct succeeded; repeat split.
Qed.

(** *** From one end to the other *)

(** X16: once every request for the products that is in flight has
    settled, whatever the outcomes, the loading indicator is down and the
    page is rendered. *)
Theorem indicator_clears (os : list LoadOutcome) (w : State) :
  os <> [] ->
  length os = pendingLoads w ->
  render (run user (map LoadSettles os) w) <> LoadingProducts
  /\ pendingLoads (run user (map LoadSettles os) w) = 0%nat.
Proof.
  revert w. induction os as [| o os IH]; intros w Hsome Hlen;
    [now elim Hsome |].
  simpl in Hlen. symmetry in Hlen.
  change (run user (map LoadSettles (o :: os)) w)
    with (run user (map LoadSettles os) (step user w (LoadSettles o))).
  rewrite (step_load_settles w _ o Hlen).
  assert (Hpending : pendingLoads (load_settled user o (settled Products w))
                     = length os).
  { unfold load_settled. destruct o as [| res]; [simpl; now rewrite Hlen |].
    destruct (all_of res); simpl; now rewrite Hlen. }
  destruct os as [| o' os].
  - split; [| exact Hpending]. simpl run. unfold render.
    assert (Hdown : loading (hooks (load_settled user o
                                      (settled Products w))) = false)
      by reflexivity.
    rewrite Hdown. discriminate.
  - apply IH; [discriminate | now rewrite Hpending].
Qed.

(** An accepted purchase runs to the end of the [try]. *)
Lemma purchase_accepted
    (resp : Response) (result : Js.json) (w : State) :
  ok resp = true ->
  parsed resp = Js.ParseOk result ->
  result <> Js.JNull ->
  exists content : Js.json,
    purchase_settled (FetchResolves resp) w = purchase_succeeded content w.
Proof.
  intros Hok Hparsed Hnull. unfold purchase_settled.
  rewrite Hok, Hparsed. simpl negb. cbv iota.
  destruct (Js.get "message" result) as [m | |] eqn:Hget;
    [eexists; reflexivity | eexists; reflexivity |].
  now elim (get_of_value "message" result Hnull).
Qed.

(** X17: a purchase from the click to the refreshed catalogue.  The click
    on the enabled button, an answer in 200-299 with a JSON body other
    than [null] and the arrival of the catalogue leave the page rendered
    with the new catalogue less the user's own listings, no modal, the
    quantity at 1 and the markup at 20; one purchase and one request for
    the products have been sent and the timer for the dashboard is
    pending. *)
Theorem purchase_round_trip
    (w : State) (p : Product.t) (resp : Response) (result : Js.json)
    (res : ApiResult) (all : list Product.t) :
  loading (hooks w) = false ->
  selected (hooks w) = Some p ->
  (Product.stock p <? qty (hooks w))%float = false ->
  ok resp = true ->
  parsed resp = Js.ParseOk result ->
  result <> Js.JNull ->
  all_of res = Some all ->
  let w' := run user [ClickConfirm; PurchaseSettles (FetchResolves resp);
                      LoadSettles (LoadResolves res)] w in
  cards_shown w' = filter (not_own user) all
  /\ modal_shown w' = None
  /\ qty (hooks w') = 1%float
  /\ markup (hooks w') = 20%float
  /\ requests w'
     = (requests w ++ [PostPurchase (payload_of user p w);
                       GetAllProducts true])%list
  /\ timers w' = (timers w ++ [dashboard])%list
  /\ pendingPurchases w' = pendingPurchases w
  /\ pendingLoads w' = pendingLoads w.
Proof.
  intros Hloaded Hsel Hstock Hok Hparsed Hnull Hall w'.
  assert (Hclick : step user w ClickConfirm
                   = send (PostPurchase (payload_of user p w)) w).
  { unfold step, on_modal, on_page, over_stock, confirmPurchase.
    rewrite Hloaded, Hsel, Hstock. reflexivity. }
  set (w1 := send (PostPurchase (payload_of user p w)) w) in *.
  destruct (purchase_accepted resp result (settled Purchase w1)
              Hok Hparsed Hnull) as [content Hcontent].
  assert (Hanswer : step user w1 (PurchaseSettles (FetchResolves resp))
                    = purchase_succeeded content (settled Purchase w1))
    by (rewrite <- Hcontent; reflexivity).
  set (w2 := purchase_succeeded content (settled Purchase w1)) in *.
  assert (Harrival : step user w2 (LoadSettles (LoadResolves res))
                     = load_settled user (LoadResolves res)
                         (settled Products w2))
    by reflexivity.
  assert (Hw' : w' = load_settled user (LoadResolves res)
                       (settled Products w2)).
  { unfold w'.
    change (run user [ClickConfirm; PurchaseSettles (FetchResolves resp);
                      LoadSettles (LoadResolves res)] w)
      with (step user
              (step user (step user w ClickConfirm)
                 (PurchaseSettles (FetchResolves resp)))
              (LoadSettles (LoadResolves res))).
    rewrite Hclick, Hanswer, Harrival. reflexivity. }
  rewrite Hw'. unfold load_settled. rewrite Hall.
  unfold cards_shown, modal_shown, render. simpl.
  rewrite <- app_assoc. repeat split.
Qed.

End Behaviour.

(** ** This behaviour on the sample session *)

Section BehaviourInstances.

Import Page Sample.

(** [rice] is another seller's and is on screen after the load. *)
Lemma other_sellers_kept_witness :
  all_of (ResData [rice; own]) = Some [rice; own]
  /\ In rice (cards_shown
                (load_settled retailer (LoadResolves (ResData [rice; own]))
                   mounted)).
Proof.
  split; [reflexivity |].
  apply (proj1 (other_sellers_kept retailer mounted (ResData [rice; own])
                  [rice; own] eq_refl));
    [left; reflexivity | discriminate].
Defined.

(** The catalogue holds the retailer's own listing only. *)
Lemma empty_catalogue_notice_witness :
  render (step retailer mounted (LoadSettles (LoadResolves (ResArray [own]))))
  = Rendered [] true None.
Proof.
  apply (empty_catalogue_notice retailer). right.
  exists (ResArray [own]), [own]. split; [reflexivity |].
  split; [reflexivity |].
  intros p [<- | []]. reflexivity.
Defined.

(** Just mounted, the page shows the indicator and its load is in
    flight. *)
Lemma loading_means_in_flight_witness :
  loading (hooks (run retailer [] mounted)) = true
  /\ (1 <= pendingLoads (run retailer [] mounted))%nat.
Proof.
  split; [reflexivity |].
  apply (loading_means_in_flight retailer []). reflexivity.
Defined.

(** [rice] is selected and its modal is on screen. *)
Lemma selection_is_on_screen_witness :
  selected (hooks (run retailer browsing mounted)) = Some rice
  /\ modal_shown (run retailer browsing mounted)
     = Some (modal_of rice (run retailer browsing mounted)).
Proof.
  split; [reflexivity |].
  apply (selection_is_on_screen retailer browsing rice). reflexivity.
Defined.

(** The purchase of [rice] is from w-3 to r-7. *)
Lemma never_buys_from_self_witness :
  In (PostPurchase (payload_of retailer rice modal_open))
     (requests (run retailer (browsing ++ [ClickConfirm]) mounted))
  /\ wholesaler_id (payload_of retailer rice modal_open)
     <> retailer_id (payload_of retailer rice modal_open).
Proof.
  assert (H : In (PostPurchase (payload_of retailer rice modal_open))
                (requests (run retailer (browsing ++ [ClickConfirm])
                             mounted)))
    by (right; left; reflexivity).
  split; [exact H |].
  apply (never_buys_from_self retailer (browsing ++ [ClickConfirm]) _ H).
Defined.

(** Once the browser has left, a purchase is in the log. *)
Lemma leaves_only_for_dashboard_witness :
  href (run retailer gone mounted) = Some "/retailer/dashboard"
  /\ exists body : Payload,
       In (PostPurchase body) (requests (run retailer gone mounted)).
Proof.
  split; [reflexivity |].
  apply (proj2 (proj2 (leaves_only_for_dashboard retailer gone))).
  right. discriminate.
Defined.

(** The refused purchase shows the guidance. *)
Lemma http_failure_toast_witness :
  ok refused = false
  /\ exists shown : string,
       toasts (purchase_settled (FetchResolves refused) awaiting_answer)
       = (toasts awaiting_answer ++ [ToastError shown])%list
       /\ (shown = method_not_allowed \/ shown = cors_blocked
           \/ shown = network_error
           \/ shown = http_error_message refused)
       /\ shown <> "Purchase failed ⚠".
Proof.
  split; [reflexivity |].
  exact (http_failure_toast awaiting_answer refused eq_refl).
Defined.

(** A 404 that mentions order 1405 is taken for a refused method. *)
Lemma body_mentioning_405_witness :
  ok not_found = false
  /\ Js.includes "405" (text not_found) = true
  /\ toasts (purchase_settled (FetchResolves not_found) awaiting_answer)
     = [ToastError method_not_allowed].
Proof.
  split; [reflexivity |]. split; [reflexivity |].
  exact (body_mentioning_405 awaiting_answer not_found _
           eq_refl eq_refl eq_refl).
Defined.

(** The two refusals of the report read as two [[object Object]]. *)
Lemma validation_report_unreadable_witness :
  parsed unprocessable
  = Js.ParseOk
      (Js.JObj
         [("detail",
           Js.JArr [Js.JObj [("msg", Js.JStr "field required")];
                    Js.JObj [("msg", Js.JStr "value is not a number")]])])
  /\ http_error_message unprocessable
     = "HTTP 422: [object Object],[object Object]".
Proof.
  split; [reflexivity |].
  apply (proj1 (validation_report_unreadable unprocessable _
                  [Js.JObj [("msg", Js.JStr "field required")];
                   Js.JObj [("msg", Js.JStr "value is not a number")]]
                  eq_refl
                  (ex_intro _ []
                     (ex_intro _ [] (conj eq_refl (fun _ H => H)))))).
  repeat constructor; eexists; (split; [reflexivity |]);
    intros v [H | []]; discriminate.
Defined.

(** Two clicks on [rice], two purchases of it. *)
Lemma double_click_sends_twice_witness :
  (Product.stock rice <? qty (hooks modal_open))%float = false
  /\ pendingPurchases (run retailer [ClickConfirm; ClickConfirm] modal_open)
     = 2%nat.
Proof.
  split; [reflexivity |].
  apply (double_click_sends_twice retailer modal_open rice);
    reflexivity.
Defined.

(** The first of the two refreshes is rejected, the second brings
    [rice]. *)
Lemma overlapping_loads_witness :
  pendingLoads two_refreshes = 2%nat
  /\ pendingLoads (step retailer two_refreshes (LoadSettles LoadRejects))
     = 1%nat
  /\ render (step retailer two_refreshes (LoadSettles LoadRejects))
     <> LoadingProducts.
Proof.
  split; [reflexivity |].
  destruct (overlapping_loads retailer two_refreshes 0 LoadRejects
              (ResData [rice]) [rice] eq_refl eq_refl) as [[H1 H2] _].
  split; [exact H2 | exact H1].
Defined.

(** Eleven units were typed; after Cancel, [rice] is offered with eleven
    units again. *)
Lemma cancel_keeps_form_witness :
  selected (hooks eleven_asked) = Some rice
  /\ modal_shown (run retailer [ClickCancel; ClickSelect 0] eleven_asked)
     = Some (modal_of rice eleven_asked).
Proof.
  split; [reflexivity |].
  apply (cancel_keeps_form retailer eleven_asked rice rice 0);
    reflexivity.
Defined.

(** 100 at a markup of 20. *)
Lemma retail_price_within_half_cent_witness :
  Js.value (100 * (1 + 20 / 100))%float
  = Some (Js.magnitude 8444249301319680 (-46))
  /\ exists n : Z,
       retail_price 100%float 20%float
       = Js.Text (Js.sign_text (Js.magnitude 8444249301319680 (-46))
                  ++ Js.string_of_Z (n / 100) ++ "."
                  ++ Js.string_of_Z (n / 10 mod 10)
                  ++ Js.string_of_Z (n mod 10))
       /\ (Qabs (inject_Z n / inject_Z 100
                 - Qabs (Js.magnitude 8444249301319680 (-46)))
           <= 1 # 200)%Q.
Proof.
  split; [reflexivity |].
  apply (retail_price_within_half_cent 100%float 20%float); reflexivity.
Defined.

(** The test is run with the modal open on [rice]. *)
Lemma test_connection_leaves_form_witness :
  loading (hooks modal_open) = false
  /\ hooks (run retailer [ClickTestConnection; TestSettles false] modal_open)
     = hooks modal_open.
Proof.
  split; [reflexivity |].
  apply (test_connection_leaves_form retailer modal_open false).
  reflexivity.
Defined.

(** One load is in flight after the mount; it is rejected. *)
Lemma indicator_clears_witness :
  length [LoadRejects] = pendingLoads mounted
  /\ render (run retailer (map LoadSettles [LoadRejects]) mounted)
     <> LoadingProducts.
Proof.
  split; [reflexivity |].
  apply (indicator_clears retailer [LoadRejects] mounted);
    [discriminate | reflexivity].
Defined.

(** [rice] is bought and the catalogue comes back without it. *)
Lemma purchase_round_trip_witness :
  ok accepted = true
  /\ cards_shown
       (run retailer [ClickConfirm; PurchaseSettles (FetchResolves accepted);
                      LoadSettles (LoadResolves (ResData [own]))] modal_open)
     = [].
Proof.
  split; [reflexivity |].
  apply (purchase_round_trip retailer modal_open rice accepted
           (Js.JObj [("message", Js.JStr "Purchase recorded")])
           (ResData [own]) [own]);
    try reflexivity. discriminate.
Defined.

End BehaviourInstances.
